(** * Order attribution webhook: a shallow embedding of [webhook.py]

    The development follows the source file top to bottom:
    - [Py]: the fragment of Python's dynamic values and string methods that
      the handler relies on ([str], truthiness, [str.strip], [str.isdigit],
      [re.sub]);
    - the effect model: a state-and-exception monad over a trace of
      observable events (console output and outbound HTTP requests);
    - [BigCommerceService.get_order_details], [NetSuiteService] (the contact
      matcher), [send_to_sheets], [get_bigcommerce_service_by_store_name]
      and [process_klaviyo_order];
    - the properties of the specification, stated against these
      definitions. *)

From Stdlib Require Import ZArith List String Ascii Bool Lia DecimalString.
Import ListNotations.
Open Scope string_scope.

(* ===================================================================== *)
(** ** Python values and string primitives *)
(* ===================================================================== *)

Module Py.

(** The JSON scalars that reach the handler: [null]/a missing key read with
    [dict.get], a string, or a number. *)
Inductive pyval : Type :=
| PNone
| PStr (s : string)
| PInt (z : Z).

(** Truthiness, as tested by [if x] / [if not x] / [x or y]. *)
Definition truthy (v : pyval) : bool :=
  match v with
  | PNone => false
  | PStr s => negb (s =? "")
  | PInt z => negb (z =? 0)%Z
  end.

(** Truthiness of a value known to be [None] or a [str]. *)
Definition truthy_opt (o : option string) : bool :=
  match o with
  | None => false
  | Some s => negb (s =? "")
  end.

(** [str(v)], also what ["{}".format(v)] inserts. *)
Definition str (v : pyval) : string :=
  match v with
  | PNone => "None"
  | PStr s => s
  | PInt z => NilZero.string_of_int (Z.to_int z)
  end.

(** [d.get(k, default)] for a key that may be absent. *)
Definition get_or {A : Type} (o : option A) (default : A) : A :=
  match o with
  | Some v => v
  | None => default
  end.

(** [x or y] on values that are [None] or a [str]. *)
Definition or_else (x y : option string) : option string :=
  if truthy_opt x then x else y.

Definition is_digit (c : ascii) : bool :=
  let n := nat_of_ascii c in (48 <=? n)%nat && (n <=? 57)%nat.

Definition is_space (c : ascii) : bool :=
  let n := nat_of_ascii c in
  (n =? 32)%nat || ((9 <=? n)%nat && (n <=? 13)%nat) ||
  ((28 <=? n)%nat && (n <=? 31)%nat).

(** [s.isdigit()]: non-empty and made of digits only (the ASCII digits;
    the method also accepts the other decimal digits of Unicode). *)
Fixpoint all_digits (s : string) : bool :=
  match s with
  | EmptyString => true
  | String c r => is_digit c && all_digits r
  end.

Definition isdigit (s : string) : bool :=
  negb (s =? "") && all_digits s.

Fixpoint lstrip (s : string) : string :=
  match s with
  | EmptyString => EmptyString
  | String c r => if is_space c then lstrip r else s
  end.

Fixpoint rstrip (s : string) : string :=
  match s with
  | EmptyString => EmptyString
  | String c r =>
      match rstrip r with
      | EmptyString => if is_space c then EmptyString else String c EmptyString
      | r' => String c r'
      end
  end.

(** [s.strip()], on the ASCII white space. *)
Definition strip (s : string) : string := rstrip (lstrip s).

Definition upper_char (c : ascii) : ascii :=
  let n := nat_of_ascii c in
  if (97 <=? n)%nat && (n <=? 122)%nat then ascii_of_nat (n - 32) else c.

(** [UPPER(...)] of the query language, on ASCII. *)
Fixpoint upper (s : string) : string :=
  match s with
  | EmptyString => EmptyString
  | String c r => String (upper_char c) (upper r)
  end.

Definition lower_char (c : ascii) : ascii :=
  let n := nat_of_ascii c in
  if (65 <=? n)%nat && (n <=? 90)%nat then ascii_of_nat (n + 32) else c.

(** [s.lower()], on ASCII. *)
Fixpoint lower (s : string) : string :=
  match s with
  | EmptyString => EmptyString
  | String c r => String (lower_char c) (lower r)
  end.

(** [None] or a [str], seen as a value. *)
Definition of_opt (o : option string) : pyval :=
  match o with
  | Some s => PStr s
  | None => PNone
  end.

(** [x or y] where [y] is a [str]. *)
Definition or_str (x : option string) (y : string) : string :=
  if truthy_opt x then get_or x y else y.

(** [x == y] on values that are [None] or a [str]. *)
Definition option_string_eqb (x y : option string) : bool :=
  match x, y with
  | Some a, Some b => a =? b
  | None, None => true
  | _, _ => false
  end.

(** The quote character that delimits a string literal in the query
    language. *)
Definition apostrophe : ascii := ascii_of_nat 39.

Fixpoint has_quote (s : string) : bool :=
  match s with
  | EmptyString => false
  | String c r => Ascii.eqb c apostrophe || has_quote r
  end.

(** The value a string literal of the query language denotes when the
    text [s] is pasted, as it is, between two quotes.  A doubled quote
    stands for one quote character.  A lone quote closes the literal
    early: what follows is read as query text, and the query is no longer
    the one that was written ([None]). *)
Fixpoint sql_literal (s : string) : option string :=
  match s with
  | EmptyString => Some EmptyString
  | String c r =>
      if Ascii.eqb c apostrophe then
        match r with
        | String d r' =>
            if Ascii.eqb d apostrophe
            then option_map (String apostrophe) (sql_literal r')
            else None
        | EmptyString => None
        end
      else option_map (String c) (sql_literal r)
  end.

(** The backslash character. *)
Definition backslash : ascii := ascii_of_nat 92.

(** [re.sub(r'\\D', '', s)].  The pattern is written as a raw string with
    two backslashes, so the regular expression is an escaped backslash
    followed by the letter [D]: it matches the two-character text
    backslash-D and nothing else.  Every leftmost non-overlapping
    occurrence is removed. *)
Fixpoint re_sub_backslash_D (s : string) : string :=
  match s with
  | EmptyString => EmptyString
  | String c r =>
      match r with
      | String d r' =>
          if Ascii.eqb c backslash && Ascii.eqb d "D"%char
          then re_sub_backslash_D r'
          else String c (re_sub_backslash_D r)
      | EmptyString => String c EmptyString
      end
  end.

(** What the regular expression [\D] (one backslash) would remove: the
    characters that are not digits.  This is also
    [REGEXP_REPLACE(s, '[^0-9]', '')] of the query language. *)
Fixpoint digits_only (s : string) : string :=
  match s with
  | EmptyString => EmptyString
  | String c r => if is_digit c then String c (digits_only r) else digits_only r
  end.

Fixpoint has_backslash (s : string) : bool :=
  match s with
  | EmptyString => false
  | String c r => Ascii.eqb c backslash || has_backslash r
  end.

(** Exceptions, with the text [str(error)] yields. *)
Inductive exn : Type :=
| TypeError (msg : string)
| ValueError (msg : string)
| AttributeError (msg : string)
| RequestException (msg : string).

Definition exn_str (e : exn) : string :=
  match e with
  | TypeError m | ValueError m | AttributeError m | RequestException m => m
  end.

End Py.
Import Py.

(* ===================================================================== *)
(** ** Data exchanged with the three external systems *)
(* ===================================================================== *)

(** The order JSON of the order-management API, reduced to the keys
    [get_order_details] reads.  A field of type [option _] is a key that
    may be absent; [pyval] fields are read with [dict.get(k)], where an
    absent key and [null] both give [None]. *)
Record billing : Type := {
  b_email : option pyval;
  b_first_name : option pyval;
  b_last_name : option pyval;
  b_phone : option pyval
}.

Definition empty_billing : billing :=
  {| b_email := None; b_first_name := None; b_last_name := None;
     b_phone := None |}.

Record order_json : Type := {
  oj_id : pyval;
  oj_billing_address : option billing;
  oj_date_created : pyval;
  oj_subtotal_ex_tax : option pyval;
  oj_total_ex_tax : option pyval
}.

(** The dict returned by [get_order_details]. *)
Record order_details : Type := {
  od_id : pyval;
  od_email : pyval;
  od_customer_name : string;
  od_phone : pyval;
  od_order_date : pyval;
  od_order_total : pyval;
  od_store : string
}.

(** A row of the CRM [customer] table, as the query endpoint lists it: the
    columns named in the SELECT clauses, each a string or absent (NULL). *)
Record customer : Type := {
  c_id : option string;
  c_email : option string;
  c_phone : option string;
  c_entityid : option string;
  c_last_contact_date : option string;
  c_lastmodifieddate : option string;
  c_datecreated : option string;
  c_firstname : option string;
  c_lastname : option string;
  c_salesrep : option string
}.

(** A row of the CRM [employee] table. *)
Record employee : Type := {
  e_id : option string;
  e_entityid : option string;
  e_firstname : option string;
  e_lastname : option string;
  e_email : option string
}.

(** The two customer queries, by the values interpolated into their text. *)
Inductive customer_query : Type :=
| PerfectMatchQuery (email clean_phone : string)
| EmailOnlyQuery (email : string).

(** The dict built by the contact matcher.  The three-key dict of a failed
    search has [None] in every column field, which is what [dict.get]
    returns for its missing keys.  The keys [email] and [phone] are the
    fields [contact_email] and [contact_phone], the matcher's parameters
    having those names. *)
Record contact_result : Type := {
  contact_id : option string;
  contact_email : option string;
  contact_phone : option string;
  sales_rep : option string;
  contact_date : option string;
  created_date : option string;
  name : option string;
  record_type : option string;
  found : bool;
  manual_verification : bool;
  review_reason : string
}.

Definition not_found_result (mv : bool) (reason : string) : contact_result :=
  {| contact_id := None; contact_email := None; contact_phone := None;
     sales_rep := None;
     contact_date := None; created_date := None; name := None;
     record_type := None; found := false; manual_verification := mv;
     review_reason := reason |}.

(** [d['manual_verification'] = mv; d['review_reason'] = reason]. *)
Definition set_review (d : contact_result) (mv : bool) (reason : string)
  : contact_result :=
  {| contact_id := contact_id d; contact_email := contact_email d;
     contact_phone := contact_phone d;
     sales_rep := sales_rep d; contact_date := contact_date d;
     created_date := created_date d; name := name d;
     record_type := record_type d; found := found d;
     manual_verification := mv; review_reason := reason |}.

(** The flat record posted to the ledger ([sheet_data]). *)
Record sheet_row : Type := {
  sr_store : pyval;
  sr_order_id : string;
  sr_email : pyval;
  sr_customer_name : string;
  sr_phone : pyval;
  sr_order_date : pyval;
  sr_order_total : pyval;
  sr_sales_rep : option string;
  sr_contact_date : option string;
  sr_manual_verification : bool;
  sr_review_reason : string;
  sr_record_type : option string;
  sr_netsuite_phone : option string
}.

(** The [data] object of a trigger payload, by the two keys the
    orchestrator reads; each is a scalar, [None] when the key is absent or
    null. *)
Record klaviyo_data : Type := {
  kd_order_id : pyval;
  kd_store : pyval
}.

(** A decoded JSON value that is not an object, by its Python type. *)
Inductive non_object : Type :=
| JNull
| JBool
| JInt
| JFloat
| JStr
| JList.

(** [type(v).__name__]. *)
Definition type_name (k : non_object) : string :=
  match k with
  | JNull => "NoneType"
  | JBool => "bool"
  | JInt => "int"
  | JFloat => "float"
  | JStr => "str"
  | JList => "list"
  end.

(** The decoded webhook body handed to [process_klaviyo_order]: an object
    whose [data] is an object, an object without [data], an object whose
    [data] is null or another non-object, or a value that is not an
    object at all. *)
Inductive trigger_payload : Type :=
| WithData (data : klaviyo_data)
| WithoutData
| DataNotObject (k : non_object)
| NotObject (k : non_object).

(** A [data] object stands for the payload that carries it. *)
Coercion WithData : klaviyo_data >-> trigger_payload.

(** What [process_klaviyo_order] returns: one of two status dicts, or an
    error dict paired with a status code. *)
Inductive response : Type :=
| Success (order_id : pyval) (rep : option string) (mv : bool)
| Ignored (order_id : pyval) (reason : string)
| Error (msg : string) (code : Z).

(* ===================================================================== *)
(** ** Effects: a trace of events, exceptions, and the outside world *)
(* ===================================================================== *)

Inductive event : Type :=
| Print (msg : string)
| OrderGet (url : string)
| CustomerPost (url : string) (q : customer_query)
| EmployeePost (url : string) (employee_id : string)
| SheetPost (url : string) (row : sheet_row).

(** The events of a run, most recent first. *)
Definition trace : Type := list event.

Definition is_request (ev : event) : bool :=
  match ev with
  | Print _ => false
  | _ => true
  end.

Definition is_ledger_write (ev : event) : bool :=
  match ev with
  | SheetPost _ _ => true
  | _ => false
  end.

(** Number of outbound HTTP requests made so far. *)
Definition request_count (t : trace) : nat := List.length (filter is_request t).

(** Number of ledger writes issued so far. *)
Definition ledger_writes (t : trace) : nat :=
  List.length (filter is_ledger_write t).

(** How a request to the CRM or to the ledger ends: an exception raised
    while sending or decoding ([Fails]), or a response with a status
    code. *)
Inductive transport : Type :=
| Fails (e : exn)
| Status (code : Z).

(** How a request to the order-management API ends: an exception raised
    inside the [try] block of [get_order_details] (connection failure,
    [raise_for_status], undecodable body), or the decoded order. *)
Inductive order_reply : Type :=
| OrderRaises (e : exn)
| OrderJson (data : order_json).

(** Everything the handler reads from outside.  [customers] is the CRM
    customer table listed in the order of the ORDER BY clause shared by the
    two customer queries; [net n] and [orders n url] tell how the [n]-th
    outbound request of the run ends; [render_date] is the result of
    [strptime] over the three accepted formats followed by [strftime]
    ([None] when no format parses); [injected q] is the rows the CRM
    answers with when a value pasted into the text of [q] breaks out of
    its quotes, so that the text is another query than the one written. *)
Record World : Type := {
  getenv : string -> option string;
  net : nat -> transport;
  orders : nat -> string -> order_reply;
  customers : list customer;
  employees : list employee;
  render_date : string -> option string;
  injected : customer_query -> list customer
}.

Inductive res (A : Type) : Type :=
| Ret (a : A)
| Raise (e : exn).
Arguments Ret {A} a.
Arguments Raise {A} e.

(** A computation reads the trace so far and returns a value or raises,
    together with the extended trace. *)
Definition M (A : Type) : Type := trace -> res A * trace.

Definition ret {A} (a : A) : M A := fun t => (Ret a, t).

Definition raise {A} (e : exn) : M A := fun t => (Raise e, t).

Definition bind {A B} (m : M A) (k : A -> M B) : M B :=
  fun t =>
    match m t with
    | (Ret a, t') => k a t'
    | (Raise e, t') => (Raise e, t')
    end.

(** [try: m except Exception as error: h error]. *)
Definition try_except {A} (m : M A) (h : exn -> M A) : M A :=
  fun t =>
    match m t with
    | (Ret a, t') => (Ret a, t')
    | (Raise e, t') => h e t'
    end.

Definition print (msg : string) : M unit := fun t => (Ret tt, Print msg :: t).

(** A pure step that may raise. *)
Definition lift {A} (r : res A) : M A := fun t => (r, t).

Declare Scope py_scope.
Delimit Scope py_scope with py.
Notation "x <- m ;; k" := (bind m (fun x => k))
  (at level 61, m at next level, right associativity) : py_scope.
Notation "m ;;; k" := (bind m (fun _ => k))
  (at level 61, right associativity) : py_scope.
Open Scope py_scope.

(* ===================================================================== *)
(** ** The program *)
(* ===================================================================== *)

Record BigCommerceService : Type := {
  store_hash : string;
  access_token : string;
  store_name : string;
  base_url : string
}.

(** [BigCommerceService.__init__]. *)
Definition BigCommerceService_init (store_hash access_token : string)
    (store_name : option string) : BigCommerceService :=
  {| store_hash := store_hash;
     access_token := access_token;
     store_name := or_str store_name store_hash;
     base_url := "https://api.bigcommerce.com/stores/" ++ store_hash ++ "/v2" |}.

Record NetSuiteService : Type := {
  account_id : string;
  query_base_url : string
}.

(** [NetSuiteService._clean_phone].  A truthy value that is not a string
    makes [re.sub] raise a [TypeError] (recent interpreters append the
    offending type to the message). *)
Definition _clean_phone (phone : pyval) : res (option string) :=
  if negb (truthy phone) then Ret None
  else match phone with
       | PStr s => Ret (Some (re_sub_backslash_D s))
       | _ => Raise (TypeError "expected string or bytes-like object")
       end.

(** [order_info = klaviyo_data.get('data', {})] and the first
    [order_info.get]: a missing [data] reads as the empty object; a
    payload or a [data] that is not an object has no method [get]. *)
Definition payload_data (payload : trigger_payload) : res klaviyo_data :=
  match payload with
  | WithData order_info => Ret order_info
  | WithoutData => Ret {| kd_order_id := PNone; kd_store := PNone |}
  | DataNotObject k | NotObject k =>
      Raise (AttributeError
               ("'" ++ type_name k ++ "' object has no attribute 'get'"))
  end.

(** The sentinel test of the orchestrator:
    [sales_rep in ['Not Assigned', 'NO OWNER', None, '']]. *)
Definition is_unassigned (rep : option string) : bool :=
  match rep with
  | None => true
  | Some s => (s =? "Not Assigned") || (s =? "NO OWNER") || (s =? "")
  end.

Definition store_configs : list (string * (string * string * string)) :=
  [ ("Wilson US", ("BIGCOMMERCE_STORE1_HASH",
                   "BIGCOMMERCE_STORE1_ACCESS_TOKEN",
                   "BIGCOMMERCE_STORE1_NAME"));
    ("Signal US", ("BIGCOMMERCE_STORE2_HASH",
                   "BIGCOMMERCE_STORE2_ACCESS_TOKEN",
                   "BIGCOMMERCE_STORE2_NAME"));
    ("Wilson CA", ("BIGCOMMERCE_STORE3_HASH",
                   "BIGCOMMERCE_STORE3_ACCESS_TOKEN",
                   "BIGCOMMERCE_STORE3_NAME"));
    ("Signal CA", ("BIGCOMMERCE_STORE4_HASH",
                   "BIGCOMMERCE_STORE4_ACCESS_TOKEN",
                   "BIGCOMMERCE_STORE4_NAME")) ].

Fixpoint assoc {A : Type} (k : string) (d : list (string * A)) : option A :=
  match d with
  | [] => None
  | (k', v) :: d' => if k =? k' then Some v else assoc k d'
  end.

(** [store_configs.get(store_name)]: only a string can be one of the keys. *)
Definition store_configs_get (store_name : pyval)
  : option (string * string * string) :=
  match store_name with
  | PStr s => assoc s store_configs
  | _ => None
  end.

(** The WHERE clauses of the two customer queries. *)
Definition email_matches (c : customer) (e : string) : bool :=
  match c_email c with
  | Some ce => upper ce =? upper e
  | None => false
  end.

Definition phone_matches (c : customer) (clean_phone : string) : bool :=
  digits_only (get_or (c_phone c) "") =? clean_phone.

Definition has_salesrep (c : customer) : bool :=
  match c_salesrep c with
  | Some _ => true
  | None => false
  end.

Definition employee_has_id (employee_id : string) (e : employee) : bool :=
  match e_id e with
  | Some i => i =? employee_id
  | None => false
  end.

Section Program.

Variable W : World.

(** The rows the CRM returns for a customer query, in ORDER BY order.  The
    query text is embedded by the meaning of its WHERE clause.  The email
    and the phone are pasted into the text unescaped, between quotes: the
    clause compares with the values the two literals denote
    ([sql_literal]), and when a pasted value breaks out of its quotes the
    answer is the world's ([injected]). *)
Definition select_customers (q : customer_query) : list customer :=
  match q with
  | PerfectMatchQuery e p =>
      match sql_literal e, sql_literal p with
      | Some e', Some p' =>
          filter (fun c => email_matches c e' && phone_matches c p'
                           && has_salesrep c)
                 (customers W)
      | _, _ => injected W q
      end
  | EmailOnlyQuery e =>
      match sql_literal e with
      | Some e' =>
          filter (fun c => email_matches c e' && has_salesrep c) (customers W)
      | None => injected W q
      end
  end.

(** The rows of the employee query.  The id pasted into its text has
    passed [isdigit], so it cannot break out of its quotes. *)
Definition select_employees (employee_id : string) : list employee :=
  filter (employee_has_id employee_id) (employees W).

(** [requests.get(url, ...)] followed by [raise_for_status()] and
    [response.json()]. *)
Definition requests_get (url : string) : M order_json :=
  fun t =>
    (match orders W (request_count t) url with
     | OrderRaises e => Raise e
     | OrderJson data => Ret data
     end, OrderGet url :: t).

(** [requests.post] of a customer query: the status code and the [items]
    of the body. *)
Definition post_customer_query (url : string) (q : customer_query)
  : M (Z * list customer) :=
  fun t =>
    (match net W (request_count t) with
     | Fails e => Raise e
     | Status code =>
         Ret (code, if (code =? 200)%Z then select_customers q else [])
     end, CustomerPost url q :: t).

Definition post_employee_query (url : string) (employee_id : string)
  : M (Z * list employee) :=
  fun t =>
    (match net W (request_count t) with
     | Fails e => Raise e
     | Status code =>
         Ret (code, if (code =? 200)%Z then select_employees employee_id else [])
     end, EmployeePost url employee_id :: t).

(** [requests.post(webapp_url, json=data, ...)]: the status code. *)
Definition post_sheet (url : string) (data : sheet_row) : M Z :=
  fun t =>
    (match net W (request_count t) with
     | Fails e => Raise e
     | Status code => Ret code
     end, SheetPost url data :: t).

(** [BigCommerceService.get_order_details]. *)
Definition get_order_details (self : BigCommerceService) (order_id : pyval)
  : M order_details :=
  try_except
    (let url := base_url self ++ "/orders/" ++ Py.str order_id in
     data <- requests_get url ;;
     let billing_address := get_or (oj_billing_address data) empty_billing in
     ret {| od_id := oj_id data;
            od_email := get_or (b_email billing_address) (PStr "");
            od_customer_name :=
              strip (Py.str (get_or (b_first_name billing_address) (PStr ""))
                     ++ " " ++
                     Py.str (get_or (b_last_name billing_address) (PStr "")));
            od_phone := get_or (b_phone billing_address) (PStr "");
            od_order_date := oj_date_created data;
            od_order_total :=
              get_or (oj_subtotal_ex_tax data)
                     (get_or (oj_total_ex_tax data) (PStr "0.00"));
            od_store := store_name self |})
    (fun error =>
       print ("Error fetching order " ++ Py.str order_id ++ " from "
              ++ store_name self ++ ": " ++ exn_str error) ;;;
       raise error).

(** [NetSuiteService.__init__]; request signing is outside the model. *)
Definition NetSuiteService_init : M NetSuiteService :=
  match getenv W "NETSUITE_ACCOUNT_ID" with
  | Some a =>
      ret {| account_id := a;
             query_base_url :=
               "https://" ++ lower a
               ++ ".suitetalk.api.netsuite.com/services/rest/query/v1" |}
  | None => raise (AttributeError "'NoneType' object has no attribute 'lower'")
  end.

(** [NetSuiteService.get_employee_name]. *)
Definition get_employee_name (self : NetSuiteService) (employee_id : string)
  : M string :=
  try_except
    (let url := query_base_url self ++ "/suiteql" in
     r <- post_employee_query url employee_id ;;
     let '(status_code, items) := r in
     if (status_code =? 200)%Z then
       match items with
       | employee :: _ =>
           let name := strip (get_or (e_firstname employee) "" ++ " "
                              ++ get_or (e_lastname employee) "") in
           ret (if name =? ""
                then get_or (e_entityid employee)
                            ("Employee ID: " ++ employee_id)
                else name)
       | [] => ret ("Employee ID: " ++ employee_id)
       end
     else ret ("Employee ID: " ++ employee_id))
    (fun error =>
       print ("Error fetching employee " ++ employee_id ++ ": "
              ++ exn_str error) ;;;
       ret ("Employee ID: " ++ employee_id)).

(** [NetSuiteService._execute_search_query]. *)
Definition _execute_search_query (self : NetSuiteService)
    (query : customer_query) (match_type : string)
  : M (option contact_result) :=
  try_except
    (let url := query_base_url self ++ "/suiteql" in
     r <- post_customer_query url query ;;
     let '(status_code, items) := r in
     if (status_code =? 200)%Z then
       match items with
       | record :: _ =>
           let sales_rep_id := c_salesrep record in
           sales_rep <-
             (if truthy_opt sales_rep_id && isdigit (get_or sales_rep_id "")
              then get_employee_name self (get_or sales_rep_id "")
              else ret (or_str sales_rep_id "Not Assigned")) ;;
           let full_name := strip (get_or (c_firstname record) "" ++ " "
                                   ++ get_or (c_lastname record) "") in
           ret (Some
             {| contact_id := c_id record;
                contact_email := c_email record;
                contact_phone := c_phone record;
                sales_rep := Some sales_rep;
                contact_date := or_else (c_last_contact_date record)
                                        (c_lastmodifieddate record);
                created_date := c_datecreated record;
                name := Some (if full_name =? ""
                              then get_or (c_entityid record) ""
                              else full_name);
                record_type := Some "customer";
                found := true;
                manual_verification := false;
                review_reason := match_type |})
       | [] => ret None
       end
     else
       print ("NetSuite API Error: " ++ Py.str (PInt status_code)) ;;;
       ret None)
    (fun error =>
       print ("Error executing search query: " ++ exn_str error) ;;;
       ret None).

(** [NetSuiteService._search_customer_perfect_match]. *)
Definition _search_customer_perfect_match (self : NetSuiteService)
    (email : pyval) (clean_phone : string) : M (option contact_result) :=
  _execute_search_query self
    (PerfectMatchQuery (Py.str email) clean_phone) "Perfect match".

(** [NetSuiteService._search_customer_email_only]. *)
Definition _search_customer_email_only (self : NetSuiteService)
    (email : pyval) : M (option contact_result) :=
  _execute_search_query self (EmailOnlyQuery (Py.str email)) "Email match".

(** [NetSuiteService.search_contact_by_email_and_phone]. *)
Definition search_contact_by_email_and_phone (self : NetSuiteService)
    (email : pyval) (phone : pyval) : M contact_result :=
  try_except
    (clean_phone <-
       (if truthy phone then lift (_clean_phone phone) else ret None) ;;
     perfect_match <-
       (if truthy_opt clean_phone
        then _search_customer_perfect_match self email (get_or clean_phone "")
        else ret None) ;;
     match perfect_match with
     | Some result => ret result
     | None =>
         email_match <- _search_customer_email_only self email ;;
         match email_match with
         | Some m =>
             if truthy_opt clean_phone && truthy_opt (contact_phone m) then
               netsuite_phone <- lift (_clean_phone (of_opt (contact_phone m))) ;;
               if negb (option_string_eqb netsuite_phone clean_phone)
               then ret (set_review m true "Phone number mismatch")
               else ret (set_review m false "Perfect match")
             else
               ret (set_review m
                      (if truthy_opt clean_phone then true else false)
                      (if truthy_opt clean_phone
                       then "Missing phone in NetSuite"
                       else "No phone provided"))
         | None => ret (not_found_result true "No NetSuite record found")
         end
     end)
    (fun error =>
       print ("Error searching NetSuite contact: " ++ exn_str error) ;;;
       ret (not_found_result true ("Search error: " ++ exn_str error))).

(** [format_bigcommerce_date].  Parsing and rendering are the library's and
    come from the world; a truthy value that is not a string makes
    [strptime] raise a [TypeError], which the outer handler reports before
    returning its argument. *)
Definition format_bigcommerce_date (date_string : pyval) : M pyval :=
  if negb (truthy date_string) then ret (PStr "")
  else match date_string with
       | PStr s =>
           ret (match render_date W s with
                | Some out => PStr out
                | None => date_string
                end)
       | _ =>
           print ("Error formatting date " ++ Py.str date_string ++ ": "
                  ++ "strptime() argument 1 must be str, not int") ;;;
           ret date_string
       end.

(** [send_to_sheets]. *)
Definition send_to_sheets (data : sheet_row) : M bool :=
  try_except
    (let webapp_url := getenv W "GOOGLE_WEBAPP_URL" in
     let manual_flag :=
       if sr_manual_verification data then " [MANUAL VERIFICATION]" else "" in
     if negb (truthy_opt webapp_url) then
       print ("[SIMULATION] Would send to sheets: " ++ sr_order_id data
              ++ " - " ++ Py.str (sr_email data) ++ " - "
              ++ Py.str (of_opt (sr_sales_rep data)) ++ manual_flag) ;;;
       ret true
     else
       status_code <- post_sheet (get_or webapp_url "") data ;;
       if (status_code =? 200)%Z then
         print ("Sent to sheets: Order " ++ sr_order_id data ++ " - "
                ++ Py.str (of_opt (sr_sales_rep data)) ++ manual_flag) ;;;
         ret true
       else
         print ("Failed to send to sheets: " ++ Py.str (PInt status_code)) ;;;
         ret false)
    (fun e =>
       print ("Error sending to sheets: " ++ exn_str e) ;;;
       ret false).

(** [get_bigcommerce_service_by_store_name]. *)
Definition get_bigcommerce_service_by_store_name (store_name : pyval)
  : res BigCommerceService :=
  match store_configs_get store_name with
  | None => Raise (ValueError ("Unknown store name: " ++ Py.str store_name))
  | Some (hash_key, token_key, name_key) =>
      let store_hash := getenv W hash_key in
      let access_token := getenv W token_key in
      let store_display_name := getenv W name_key in
      if negb (truthy_opt store_hash) || negb (truthy_opt access_token)
      then Raise (ValueError ("Missing configuration for store: "
                              ++ Py.str store_name))
      else Ret (BigCommerceService_init (get_or store_hash "")
                  (get_or access_token "") store_display_name)
  end.

(** [process_klaviyo_order]. *)
Definition process_klaviyo_order (klaviyo_data : trigger_payload)
  : M response :=
  try_except
    (order_info <- lift (payload_data klaviyo_data) ;;
     let order_id := kd_order_id order_info in
     let store_name := kd_store order_info in
     if negb (truthy order_id) then
       ret (Error "No order ID found in Klaviyo data" 400)
     else if negb (truthy store_name) then
       ret (Error "No store name found in Klaviyo data" 400)
     else
       print ("Processing order " ++ Py.str order_id ++ " from "
              ++ Py.str store_name) ;;;
       bigcommerce <- lift (get_bigcommerce_service_by_store_name store_name) ;;
       order_details <- get_order_details bigcommerce order_id ;;
       netsuite <- NetSuiteService_init ;;
       contact_result <-
         search_contact_by_email_and_phone netsuite
           (od_email order_details) (od_phone order_details) ;;
       if found contact_result
          && negb (is_unassigned (sales_rep contact_result))
       then
         let rep := sales_rep contact_result in
         let mv := manual_verification contact_result in
         let reason := review_reason contact_result in
         print ("Found customer with sales rep: " ++ Py.str (of_opt rep)
                ++ " - " ++ reason) ;;;
         order_date <- format_bigcommerce_date (od_order_date order_details) ;;
         let sheet_data :=
           {| sr_store := store_name;
              sr_order_id := Py.str (od_id order_details);
              sr_email := od_email order_details;
              sr_customer_name := od_customer_name order_details;
              sr_phone := od_phone order_details;
              sr_order_date := order_date;
              sr_order_total := od_order_total order_details;
              sr_sales_rep := rep;
              sr_contact_date := contact_date contact_result;
              sr_manual_verification := mv;
              sr_review_reason := reason;
              sr_record_type := record_type contact_result;
              sr_netsuite_phone := contact_phone contact_result |} in
         sent <- send_to_sheets sheet_data ;;
         if sent : bool then ret (Success order_id rep mv)
         else ret (Error "Failed to send to Google Sheets" 500)
       else
         let reason := review_reason contact_result in
         print ("No sales rep attribution - ignoring order (" ++ reason
                ++ ")") ;;;
         ret (Ignored order_id reason))
    (fun error =>
       print ("Error processing Klaviyo order: " ++ exn_str error) ;;;
       ret (Error (exn_str error) 500)).

End Program.

(** The same normalisation written from the specification's words: the
    digit-only subsequence of the input, absence for an absent or empty
    input. *)
Definition spec_clean_phone (phone : option string) : option string :=
  match phone with
  | None => None
  | Some s => if s =? "" then None else Some (digits_only s)
  end.

(** The orchestrator's run on [kd] from trace [t] passed validation,
    fetched the order [od] and obtained the contact-match result [cr],
    leaving the trace [t2]. *)
Definition reaches_match (W : World) (kd : klaviyo_data) (t : trace)
    (od : order_details) (cr : contact_result) (t2 : trace) : Prop :=
  truthy (kd_order_id kd) = true /\
  truthy (kd_store kd) = true /\
  exists bc ns t0 t1,
    get_bigcommerce_service_by_store_name W (kd_store kd) = Ret bc /\
    print ("Processing order " ++ Py.str (kd_order_id kd) ++ " from "
           ++ Py.str (kd_store kd)) t = (Ret tt, t0) /\
    get_order_details W bc (kd_order_id kd) t0 = (Ret od, t1) /\
    NetSuiteService_init W t1 = (Ret ns, t1) /\
    search_contact_by_email_and_phone W ns (od_email od) (od_phone od) t1
      = (Ret cr, t2).

(** The value of [clean_phone] on entry to the matcher:
    [self._clean_phone(phone) if phone else None]. *)
Definition entry_clean_phone (phone : pyval) : res (option string) :=
  if truthy phone then _clean_phone phone else Ret None.

(** An exact email+phone match, in the specification's words: the CRM
    holds a customer with the email (compared without case), a sales rep,
    and the caller's phone once both are normalised, the caller having
    supplied one. *)
Definition spec_exact_match (W : World) (email : pyval)
    (phone : option string) : Prop :=
  exists c,
    In c (customers W) /\
    email_matches c (Py.str email) = true /\
    has_salesrep c = true /\
    spec_clean_phone phone <> None /\
    spec_clean_phone (c_phone c) = spec_clean_phone phone.

(** A consistent email-only match: a record was found and the phone is
    missing on both sides. *)
Definition spec_phone_missing_on_both_sides (phone : option string)
    (r : contact_result) : Prop :=
  found r = true /\
  spec_clean_phone phone = None /\
  spec_clean_phone (contact_phone r) = None.

(** The invariant on [manual_verification] in the specification's words:
    true whenever the reason tells of a phone mismatch, of missing data or
    of no CRM record; false only for an exact email+phone match or a
    consistent email-only match. *)
Definition spec_flag_invariant (W : World) (email : pyval)
    (phone : option string) (r : contact_result) : Prop :=
  (review_reason r = "Phone number mismatch" \/
   review_reason r = "Missing phone in NetSuite" \/
   review_reason r = "No NetSuite record found" ->
   manual_verification r = true) /\
  (manual_verification r = false ->
   spec_exact_match W email phone \/
   spec_phone_missing_on_both_sides phone r).



(** The failure semantics in the specification's words: a request of the
    matcher that fails with [e] ends the search with the search-error
    result built from [e]. *)
Definition spec_failure_becomes_search_error (W : World)
    (self : NetSuiteService) (email phone : pyval) (t : trace) : Prop :=
  forall e,
    net W (request_count t) = Fails e ->
    exists t',
      search_contact_by_email_and_phone W self email phone t
      = (Ret (not_found_result true ("Search error: " ++ exn_str e)), t').




(** [m] issues no ledger write, whatever the trace it starts from. *)
Definition preserves_ledger {A} (m : M A) : Prop :=
  forall t, ledger_writes (snd (m t)) = ledger_writes t.

(** [m] returns a value, whatever the trace it starts from: no exception
    escapes it. *)
Definition returns {A} (m : M A) : Prop :=
  forall t, exists a t', m t = (Ret a, t').

(* ===================================================================== *)
(** ** The serverless entry point *)
(* ===================================================================== *)

(** The request object, by what [handler] asks of it.  [get_json] is [None]
    when the object has no such attribute and otherwise what calling it
    returns or raises; [body_json] is what [json.loads(request.body)]
    returns or raises. *)
Record http_request : Type := {
  method : string;
  get_json : option (res trigger_payload);
  body_json : res trigger_payload
}.

(** The response object [handler] writes to.  The headers are an
    association list read with [assoc], the latest assignment first. *)
Record http_response : Type := {
  headers : list (string * string);
  status_code : option Z
}.

(** [response.headers[k] = v]. *)
Definition set_header (k v : string) (r : http_response) : http_response :=
  {| headers := (k, v) :: headers r; status_code := status_code r |}.

(** [response.status_code = code]. *)
Definition set_status (code : Z) (r : http_response) : http_response :=
  {| headers := headers r; status_code := Some code |}.

(** What [json.dumps] is given; the serialised text is not modelled. *)
Inductive json_doc : Type :=
| DumpResult (result : response)
| DumpError (msg : string).

Inductive http_body : Type :=
| Text (s : string)
| Json (doc : json_doc).

(** The exceptions met inside [handler]: one raised by the request object
    or the decoder, or the [UnboundLocalError] of reading a local name
    that no assignment has bound yet. *)
Inductive handler_exn : Type :=
| LibraryError (e : exn)
| UnboundLocalError (msg : string).

Definition handler_exn_str (e : handler_exn) : string :=
  match e with
  | LibraryError e => exn_str e
  | UnboundLocalError msg => msg
  end.

Inductive handler_exit : Type :=
| Returned (body : http_body)
| Escaped (e : handler_exn).

(** [json.dumps(doc)] in the body of [handler].  The function holds the
    statement [import json] (in the branch for requests without
    [get_json]), which makes [json] a local name of the whole function:
    reading it before that statement has run raises [UnboundLocalError]
    and never falls back on the module-level import.  ([json_bound] tells
    whether the statement has run; recent interpreters word the message
    differently.) *)
Definition json_dumps (json_bound : bool) (doc : json_doc) : handler_exit :=
  if json_bound then Returned (Json doc)
  else Escaped (UnboundLocalError
                  "local variable 'json' referenced before assignment").

(** The three header assignments that open [handler]. *)
Definition set_cors_headers (response : http_response) : http_response :=
  set_header "Access-Control-Allow-Headers" "Content-Type"
    (set_header "Access-Control-Allow-Methods" "POST, OPTIONS"
       (set_header "Access-Control-Allow-Origin" "*" response)).

(** [handler] of [webhook.py]: the exit, the response object as left, and
    the trace. *)
Definition handler (W : World) (request : http_request)
    (response : http_response) (t : trace)
  : handler_exit * http_response * trace :=
  let response := set_cors_headers response in
  if method request =? "OPTIONS" then
    (Returned (Text ""), set_status 200 response, t)
  else if negb (method request =? "POST") then
    (json_dumps false (DumpError "Method not allowed"),
     set_status 405 response, t)
  else
    (* the [try] block: its exit, whether [import json] has run, the
       response and the trace *)
    let '(parsed, json_bound) :=
      match get_json request with
      | Some r => (r, false)
      | None => (body_json request, true)
      end in
    let '(tried, response, t) :=
      match parsed with
      | Raise e => (Escaped (LibraryError e), response, t)
      | Ret klaviyo_data =>
          match process_klaviyo_order W klaviyo_data t with
          | (Raise e, t') => (Escaped (LibraryError e), response, t')
          | (Ret result, t') =>
              (json_dumps json_bound (DumpResult result),
               set_status 200 response, t')
          end
      end in
    match tried with
    | Returned body => (Returned body, response, t)
    | Escaped error =>
        (json_dumps json_bound
           (DumpError ("Handler error: " ++ handler_exn_str error)),
         set_status 500 response,
         Print ("Handler error: " ++ handler_exn_str error) :: t)
    end.

(** The WHERE clause of a customer query whose pasted values hold no
    quote, as a test on a row. *)
Definition where_clause (q : customer_query) (c : customer) : bool :=
  match q with
  | PerfectMatchQuery e p =>
      email_matches c e && phone_matches c p && has_salesrep c
  | EmailOnlyQuery e => email_matches c e && has_salesrep c
  end.

(** [m] makes at most [n] outbound requests, whatever the trace it starts
    from, and never removes one. *)
Definition at_most_requests {A} (n : nat) (m : M A) : Prop :=
  forall t,
    (request_count t <= request_count (snd (m t)) <= request_count t + n)%nat.

(** [m] issues at most [n] ledger writes, whatever the trace it starts
    from. *)
Definition at_most_ledger_writes {A} (n : nat) (m : M A) : Prop :=
  forall t, (ledger_writes (snd (m t)) <= ledger_writes t + n)%nat.

(** The row [process_klaviyo_order] builds for the ledger from the payload's
    store name, the order, the contact-match result and the formatted
    date. *)
Definition attribution_row (store_name : pyval) (od : order_details)
    (cr : contact_result) (order_date : pyval) : sheet_row :=
  {| sr_store := store_name;
     sr_order_id := Py.str (od_id od);
     sr_email := od_email od;
     sr_customer_name := od_customer_name od;
     sr_phone := od_phone od;
     sr_order_date := order_date;
     sr_order_total := od_order_total od;
     sr_sales_rep := sales_rep cr;
     sr_contact_date := contact_date cr;
     sr_manual_verification := manual_verification cr;
     sr_review_reason := review_reason cr;
     sr_record_type := record_type cr;
     sr_netsuite_phone := contact_phone cr |}.

(** Every value [m] returns satisfies [P]. *)
Definition ensures {A} (P : A -> Prop) (m : M A) : Prop :=
  forall t a t', m t = (Ret a, t') -> P a.

(* ===================================================================== *)
(** ** Worlds used in the examples *)
(* ===================================================================== *)

Definition ann (phone rep : option string) : customer :=
  {| c_id := Some "17"; c_email := Some "Ann@Example.com";
     c_phone := phone; c_entityid := Some "CUST17";
     c_last_contact_date := None; c_lastmodifieddate := Some "1/2/2024";
     c_datecreated := Some "5/6/2020"; c_firstname := Some "Ann";
     c_lastname := Some "Lee"; c_salesrep := rep |}.

Definition env_full (k : string) : option string :=
  if k =? "NETSUITE_ACCOUNT_ID" then Some "ACME_SB1"
  else if k =? "BIGCOMMERCE_STORE1_HASH" then Some "h1"
  else if k =? "BIGCOMMERCE_STORE1_ACCESS_TOKEN" then Some "tok"
  else if k =? "GOOGLE_WEBAPP_URL" then Some "https://ledger.example/exec"
  else None.

Definition order_1001 (phone : pyval) : order_json :=
  {| oj_id := PInt 1001;
     oj_billing_address :=
       Some {| b_email := Some (PStr "ann@example.com");
               b_first_name := Some (PStr "Ann");
               b_last_name := Some (PStr "Lee");
               b_phone := Some phone |};
     oj_date_created := PStr "Mon, 15 Jan 2024 10:00:00 +0000";
     oj_subtotal_ex_tax := Some (PStr "19.99");
     oj_total_ex_tax := None |}.

(** A world whose CRM holds the single customer [c], whose order API
    serves order 1001 with billing phone [order_phone], and whose every
    request ends as [outcome]. *)
Definition world_of (c : customer) (order_phone : pyval)
    (outcome : nat -> transport) : World :=
  {| getenv := env_full;
     net := outcome;
     orders := fun _ _ => OrderJson (order_1001 order_phone);
     customers := [c];
     employees := [];
     render_date := fun _ => None;
     injected := fun _ => [] |}.

(** A CRM row with the given id, email, phone and sales rep. *)
Definition row (id : string) (mail phone rep : option string) : customer :=
  {| c_id := Some id; c_email := mail; c_phone := phone;
     c_entityid := Some ("CUST" ++ id);
     c_last_contact_date := None; c_lastmodifieddate := None;
     c_datecreated := None; c_firstname := None; c_lastname := None;
     c_salesrep := rep |}.

Definition employee_42 : employee :=
  {| e_id := Some "42"; e_entityid := Some "E42";
     e_firstname := Some "J."; e_lastname := Some "Smith";
     e_email := None |}.

(** A world with the CRM tables [cs] and [es], the environment [env],
    order 1001 with billing phone [order_phone], and requests ending as
    [outcome]. *)
Definition world_with (cs : list customer) (es : list employee)
    (env : string -> option string) (order_phone : pyval)
    (outcome : nat -> transport) : World :=
  {| getenv := env;
     net := outcome;
     orders := fun _ _ => OrderJson (order_1001 order_phone);
     customers := cs;
     employees := es;
     render_date := fun _ => None;
     injected := fun _ => [] |}.

(** The environment of a deployment without ledger endpoint. *)
Definition env_no_ledger (k : string) : option string :=
  if k =? "GOOGLE_WEBAPP_URL" then None else env_full k.

(** The environment of a deployment whose first store has no token. *)
Definition env_no_token (k : string) : option string :=
  if k =? "BIGCOMMERCE_STORE1_ACCESS_TOKEN" then None else env_full k.

Definition blank_response : http_response :=
  {| headers := []; status_code := None |}.

(** A POST as the serverless runtime hands it over (no [get_json]), with
    a body that decodes to [kd]. *)
Definition post_of (p : trigger_payload) : http_request :=
  {| method := "POST"; get_json := None; body_json := Ret p |}.

(** The third request is refused, the others succeed. *)
Definition third_refused : nat -> transport :=
  fun n => if (n =? 2)%nat then Status 503 else Status 200.

Definition all_ok : nat -> transport := fun _ => Status 200.

Definition all_down : nat -> transport :=
  fun _ => Fails (RequestException "Read timed out.").

Definition order_api_down : World :=
  {| getenv := env_full;
     net := all_ok;
     orders := fun _ _ => OrderRaises (RequestException "Connection refused");
     customers := [];
     employees := [];
     render_date := fun _ => None;
     injected := fun _ => [] |}.

Definition netsuite0 : NetSuiteService :=
  {| account_id := "ACME_SB1";
     query_base_url :=
       "https://acme_sb1.suitetalk.api.netsuite.com/services/rest/query/v1" |}.

Definition wilson_us : BigCommerceService :=
  BigCommerceService_init "h1" "tok" None.

(* ===================================================================== *)
(** ** Phone normalisation *)
(* ===================================================================== *)

Example str_int : Py.str (PInt 1001) = "1001". Proof. reflexivity. Qed.
Example str_neg : Py.str (PInt (-5)) = "-5". Proof. reflexivity. Qed.
Example str_zero : Py.str (PInt 0) = "0". Proof. reflexivity. Qed.
Example strip_ex : strip "  Ann Lee  " = "Ann Lee". Proof. reflexivity. Qed.
Example strip_blank : strip " " = "". Proof. reflexivity. Qed.
Example upper_ex : upper "a@B.com" = "A@B.COM". Proof. reflexivity. Qed.
Example re_sub_ex1 : re_sub_backslash_D "555-1234" = "555-1234".
Proof. reflexivity. Qed.
Example re_sub_ex2 : re_sub_backslash_D "5\D5\\D" = "55\".
Proof. reflexivity. Qed.
Example digits_ex : digits_only "(555) 123-4567" = "5551234567".
Proof. reflexivity. Qed.

Lemma backslash_not_digit : is_digit backslash = false.
Proof. reflexivity. Qed.

Lemma is_digit_not_backslash c : is_digit c = true -> Ascii.eqb c backslash = false.
Proof.
  intros Hd. destruct (Ascii.eqb_spec c backslash) as [->|]; [|reflexivity].
  rewrite backslash_not_digit in Hd. discriminate.
Qed.

(** Induction on strings two characters at a time, the shape of the
    recursion of [re_sub_backslash_D]. *)
Lemma string_pair_ind (P : string -> Prop) :
  P "" ->
  (forall c, P (String c "")) ->
  (forall c d r, P r -> P (String d r) -> P (String c (String d r))) ->
  forall s, P s.
Proof.
  intros H0 H1 H2 s.
  assert (H : P s /\ forall c, P (String c s)).
  { induction s as [|d r [IHr IHc]]; split; auto. }
  exact (proj1 H).
Qed.

Lemma re_sub_cons2 c d r :
  re_sub_backslash_D (String c (String d r))
  = if Ascii.eqb c backslash && Ascii.eqb d "D"%char
    then re_sub_backslash_D r
    else String c (re_sub_backslash_D (String d r)).
Proof. reflexivity. Qed.

Lemma digits_only_cons c s :
  digits_only (String c s)
  = if is_digit c then String c (digits_only s) else digits_only s.
Proof. reflexivity. Qed.

(** Removing backslash-D pairs never touches a digit. *)
Lemma digits_only_re_sub s : digits_only (re_sub_backslash_D s) = digits_only s.
Proof.
  induction s as [|c|c d r IHr IHdr] using string_pair_ind; try reflexivity.
  rewrite re_sub_cons2.
  destruct (Ascii.eqb_spec c backslash) as [->|Hc];
    destruct (Ascii.eqb_spec d "D"%char) as [->|Hd]; cbn [andb].
  - rewrite IHr. reflexivity.
  - rewrite (digits_only_cons backslash (re_sub_backslash_D (String d r))),
      (digits_only_cons backslash (String d r)), IHdr.
    reflexivity.
  - rewrite (digits_only_cons c (re_sub_backslash_D (String "D" r))),
      (digits_only_cons c (String "D" r)), IHdr.
    reflexivity.
  - rewrite (digits_only_cons c (re_sub_backslash_D (String d r))),
      (digits_only_cons c (String d r)), IHdr.
    reflexivity.
Qed.

(** A string without a backslash is returned as it is. *)
Lemma re_sub_without_backslash s :
  has_backslash s = false -> re_sub_backslash_D s = s.
Proof.
  induction s as [|c|c d r IHr IHdr] using string_pair_ind; try reflexivity.
  cbn [has_backslash]. intros H.
  apply orb_false_iff in H as [Hc H].
  rewrite re_sub_cons2, Hc. cbn [andb].
  f_equal. apply IHdr. exact H.
Qed.

Lemma all_digits_no_backslash s : all_digits s = true -> has_backslash s = false.
Proof.
  induction s as [|c r IH]; [reflexivity|].
  cbn [all_digits has_backslash]. intros H.
  apply andb_true_iff in H as [Hc Hr].
  rewrite (is_digit_not_backslash c Hc), (IH Hr). reflexivity.
Qed.

Lemma digits_only_all_digits s : all_digits s = true -> digits_only s = s.
Proof.
  induction s as [|c r IH]; [reflexivity|].
  cbn [all_digits digits_only]. intros H.
  apply andb_true_iff in H as [Hc Hr].
  rewrite Hc, (IH Hr). reflexivity.
Qed.

(** A text without quote, pasted between quotes, denotes itself. *)
Lemma sql_literal_quote_free s : has_quote s = false -> sql_literal s = Some s.
Proof.
  induction s as [|c r IH]; [reflexivity|].
  cbn [has_quote sql_literal]. intros H.
  apply orb_false_iff in H as [Hc Hr].
  rewrite Hc, (IH Hr). reflexivity.
Qed.

(** Cleaning a phone brings no quote into it. *)
Lemma has_quote_re_sub s :
  has_quote s = false -> has_quote (re_sub_backslash_D s) = false.
Proof.
  induction s as [|c|c d r IHr IHdr] using string_pair_ind; try (intros H; exact H).
  rewrite re_sub_cons2. intros H.
  destruct (Ascii.eqb c backslash && Ascii.eqb d "D"%char).
  - apply IHr. cbn [has_quote] in H.
    apply orb_false_iff in H as [_ H]. apply orb_false_iff in H as [_ H].
    exact H.
  - change (has_quote (String c (String d r)))
      with (Ascii.eqb c apostrophe || has_quote (String d r)) in H.
    apply orb_false_iff in H as [Hc H].
    change (has_quote (String c (re_sub_backslash_D (String d r))))
      with (Ascii.eqb c apostrophe || has_quote (re_sub_backslash_D (String d r))).
    rewrite Hc, (IHdr H). reflexivity.
Qed.

Lemma has_quote_app s1 s2 :
  has_quote (s1 ++ s2) = false -> has_quote s1 = false /\ has_quote s2 = false.
Proof.
  induction s1 as [|c r IH]; cbn [append has_quote]; [auto|].
  intros H. apply orb_false_iff in H as [Hc H].
  destruct (IH H) as [H1 H2]. rewrite Hc, H1. auto.
Qed.

Lemma has_quote_app_intro s1 s2 :
  has_quote s1 = false -> has_quote s2 = false -> has_quote (s1 ++ s2) = false.
Proof.
  induction s1 as [|c r IH]; cbn [append has_quote]; [auto|].
  intros H H2. apply orb_false_iff in H as [Hc H].
  rewrite Hc, (IH H H2). reflexivity.
Qed.

Lemma all_digits_no_quote s : all_digits s = true -> has_quote s = false.
Proof.
  induction s as [|c r IH]; [reflexivity|].
  cbn [all_digits has_quote]. intros H.
  apply andb_true_iff in H as [Hc Hr]. rewrite (IH Hr), orb_false_r.
  destruct (Ascii.eqb_spec c apostrophe) as [->|]; [discriminate Hc|reflexivity].
Qed.

Lemma clean_phone_absent : _clean_phone PNone = Ret None.
Proof. reflexivity. Qed.

Lemma clean_phone_empty : _clean_phone (PStr "") = Ret None.
Proof. reflexivity. Qed.

Lemma clean_phone_without_backslash s :
  s <> "" -> has_backslash s = false -> _clean_phone (PStr s) = Ret (Some s).
Proof.
  intros Hs Hb. unfold _clean_phone. cbn [truthy].
  destruct (String.eqb_spec s "") as [|_]; [contradiction|].
  cbn [negb]. rewrite (re_sub_without_backslash s Hb). reflexivity.
Qed.

(** C1 (the code departs from the claim).  The claim: normalisation
    returns the digit-only substring of its input.  On the phone
    [555-1234] the function returns the input with its dash, where the
    digit-only substring is [5551234]: the pattern of [re.sub] names the
    text backslash-D, not the class of non-digits. *)
Theorem clean_phone_keeps_non_digits :
  _clean_phone (PStr "555-1234") = Ret (Some "555-1234") /\
  spec_clean_phone (Some "555-1234") = Some "5551234" /\
  _clean_phone (PStr "(555) 123-4567") = Ret (Some "(555) 123-4567").
Proof. repeat split. Qed.

(* ===================================================================== *)
(** ** Reasoning about computations *)
(* ===================================================================== *)

Create HintDb ledger.
Create HintDb total.

Section MonadFacts.

Context {A B : Type}.

Lemma preserves_ret (a : A) : preserves_ledger (ret a).
Proof. intros t. reflexivity. Qed.

Lemma preserves_raise (e : exn) : preserves_ledger (@raise A e).
Proof. intros t. reflexivity. Qed.

Lemma preserves_lift (r : res A) : preserves_ledger (lift r).
Proof. intros t. reflexivity. Qed.

Lemma preserves_bind (m : M A) (k : A -> M B) :
  preserves_ledger m -> (forall a, preserves_ledger (k a)) ->
  preserves_ledger (bind m k).
Proof.
  intros Hm Hk t. unfold bind. specialize (Hm t).
  destruct (m t) as [[a|e] t1]; cbn [snd] in *.
  - rewrite Hk. exact Hm.
  - exact Hm.
Qed.

Lemma preserves_try (m : M A) (h : exn -> M A) :
  preserves_ledger m -> (forall e, preserves_ledger (h e)) ->
  preserves_ledger (try_except m h).
Proof.
  intros Hm Hh t. unfold try_except. specialize (Hm t).
  destruct (m t) as [[a|e] t1]; cbn [snd] in *.
  - exact Hm.
  - rewrite Hh. exact Hm.
Qed.

Lemma returns_ret (a : A) : returns (ret a).
Proof. intros t. exists a, t. reflexivity. Qed.

Lemma returns_bind (m : M A) (k : A -> M B) :
  returns m -> (forall a, returns (k a)) -> returns (bind m k).
Proof.
  intros Hm Hk t. unfold bind. destruct (Hm t) as (a & t1 & ->).
  apply Hk.
Qed.

(** A handler that returns makes the whole [try] return. *)
Lemma returns_try (m : M A) (h : exn -> M A) :
  (forall e, returns (h e)) -> returns (try_except m h).
Proof.
  intros Hh t. unfold try_except.
  destruct (m t) as [[a|e] t1].
  - exists a, t1. reflexivity.
  - apply Hh.
Qed.

End MonadFacts.

Lemma preserves_print msg : preserves_ledger (print msg).
Proof. intros t. reflexivity. Qed.

Lemma returns_print msg : returns (print msg).
Proof. intros t. exists tt, (Print msg :: t). reflexivity. Qed.

Lemma preserves_if {A} (b : bool) (m1 m2 : M A) :
  preserves_ledger m1 -> preserves_ledger m2 ->
  preserves_ledger (if b then m1 else m2).
Proof. destruct b; auto. Qed.

Lemma returns_if {A} (b : bool) (m1 m2 : M A) :
  returns m1 -> returns m2 -> returns (if b then m1 else m2).
Proof. destruct b; auto. Qed.

#[local] Hint Resolve preserves_ret preserves_raise preserves_lift
  preserves_bind preserves_try preserves_print preserves_if : ledger.
#[local] Hint Resolve returns_ret returns_bind returns_try returns_print
  returns_if : total.

Lemma preserves_requests_get W url : preserves_ledger (requests_get W url).
Proof. intros t. reflexivity. Qed.

Lemma preserves_post_customer_query W url q :
  preserves_ledger (post_customer_query W url q).
Proof. intros t. reflexivity. Qed.

Lemma preserves_post_employee_query W url i :
  preserves_ledger (post_employee_query W url i).
Proof. intros t. reflexivity. Qed.

#[local] Hint Resolve preserves_requests_get preserves_post_customer_query
  preserves_post_employee_query : ledger.

Lemma preserves_get_employee_name W self i :
  preserves_ledger (get_employee_name W self i).
Proof.
  unfold get_employee_name.
  apply preserves_try; [apply preserves_bind|]; auto with ledger.
  intros [code items]. destruct (code =? 200)%Z, items; auto with ledger.
Qed.

Lemma returns_get_employee_name W self i :
  returns (get_employee_name W self i).
Proof. unfold get_employee_name. auto with total. Qed.

#[local] Hint Resolve preserves_get_employee_name : ledger.
#[local] Hint Resolve returns_get_employee_name : total.

Lemma preserves_execute_search_query W self q mt :
  preserves_ledger (_execute_search_query W self q mt).
Proof.
  unfold _execute_search_query.
  apply preserves_try; [apply preserves_bind|]; auto with ledger.
  intros [code items]. destruct (code =? 200)%Z, items; auto 6 with ledger.
Qed.

Lemma returns_execute_search_query W self q mt :
  returns (_execute_search_query W self q mt).
Proof. unfold _execute_search_query. auto with total. Qed.

#[local] Hint Resolve preserves_execute_search_query : ledger.
#[local] Hint Resolve returns_execute_search_query : total.

Lemma preserves_search_contact W self email phone :
  preserves_ledger (search_contact_by_email_and_phone W self email phone).
Proof.
  unfold search_contact_by_email_and_phone, _search_customer_perfect_match,
    _search_customer_email_only.
  apply preserves_try; [|auto with ledger].
  apply preserves_bind; [auto with ledger|intros cp].
  apply preserves_bind; [auto with ledger|intros [pm|]]; [auto with ledger|].
  apply preserves_bind; [auto with ledger|intros [m|]]; [|auto with ledger].
  apply preserves_if; [|auto with ledger].
  apply preserves_bind; [auto with ledger|intros np].
  auto with ledger.
Qed.

Lemma returns_search_contact W self email phone :
  returns (search_contact_by_email_and_phone W self email phone).
Proof. unfold search_contact_by_email_and_phone. auto with total. Qed.

Lemma preserves_get_order_details W self order_id :
  preserves_ledger (get_order_details W self order_id).
Proof. unfold get_order_details. auto 6 with ledger. Qed.

Lemma preserves_format_bigcommerce_date W d :
  preserves_ledger (format_bigcommerce_date W d).
Proof.
  unfold format_bigcommerce_date.
  destruct (negb (truthy d)), d; auto with ledger.
Qed.

Lemma returns_format_bigcommerce_date W d :
  returns (format_bigcommerce_date W d).
Proof.
  unfold format_bigcommerce_date.
  destruct (negb (truthy d)), d; auto with total.
Qed.

Lemma returns_send_to_sheets W data : returns (send_to_sheets W data).
Proof. unfold send_to_sheets. auto with total. Qed.

(* ===================================================================== *)
(** ** The query helper *)
(* ===================================================================== *)

(** A record comes back only from a 200 response with a first row, and is
    labelled with the match type, not yet flagged for review. *)
Lemma execute_some W self q mt t m t' :
  _execute_search_query W self q mt t = (Ret (Some m), t') ->
  found m = true /\ manual_verification m = false /\ review_reason m = mt /\
  net W (request_count t) = Status 200 /\
  exists c rest,
    select_customers W q = c :: rest /\
    contact_phone m = c_phone c /\ contact_email m = c_email c.
Proof.
  unfold _execute_search_query, try_except, bind, post_customer_query.
  destruct (net W (request_count t)) as [e|code]; [discriminate|].
  destruct (Z.eqb_spec code 200) as [->|Hcode]; [|discriminate].
  destruct (select_customers W q) as [|c rest]; [discriminate|].
  destruct (truthy_opt (c_salesrep c) && isdigit (get_or (c_salesrep c) "")).
  - destruct (get_employee_name W self _ _) as [[rep|e] t1]; [|discriminate].
    unfold ret. intros H. injection H as <- <-.
    repeat split; try reflexivity. exists c, rest. repeat split.
  - unfold ret. intros H. injection H as <- <-.
    repeat split; try reflexivity. exists c, rest. repeat split.
Qed.


(** A failed or refused request is absorbed as "no record". *)
Lemma execute_unreachable W self q mt t :
  net W (request_count t) <> Status 200 ->
  exists t', _execute_search_query W self q mt t = (Ret None, t').
Proof.
  intros Hnet.
  unfold _execute_search_query, try_except, bind, post_customer_query, print, ret.
  destruct (net W (request_count t)) as [e|code]; [eauto|].
  destruct (Z.eqb_spec code 200) as [->|Hcode]; [contradiction|eauto].
Qed.

(** A 200 response with rows yields the first row. *)
Lemma execute_first_row W self q mt t c rest :
  net W (request_count t) = Status 200 ->
  select_customers W q = c :: rest ->
  exists m t',
    _execute_search_query W self q mt t = (Ret (Some m), t') /\
    found m = true /\ manual_verification m = false /\
    review_reason m = mt /\ contact_phone m = c_phone c.
Proof.
  intros Hnet Hsel.
  unfold _execute_search_query, try_except, bind, post_customer_query.
  rewrite Hnet, Hsel. cbn [Z.eqb Pos.eqb].
  destruct (truthy_opt (c_salesrep c) && isdigit (get_or (c_salesrep c) "")).
  - destruct (returns_get_employee_name W self (get_or (c_salesrep c) "")
                (CustomerPost (query_base_url self ++ "/suiteql") q :: t))
      as (rep & t1 & ->).
    unfold ret. eexists _, _. repeat split.
  - unfold ret. eexists _, _. repeat split.
Qed.

(* ===================================================================== *)
(** ** Order fetcher *)
(* ===================================================================== *)

(** C9.  When the request to the order-management API fails with [e],
    [get_order_details] raises [e] to its caller; the only other trace of
    the failure is the log line printed before re-raising. *)
Theorem get_order_details_propagates W self order_id t e :
  orders W (request_count t) (base_url self ++ "/orders/" ++ Py.str order_id)
    = OrderRaises e ->
  get_order_details W self order_id t
  = (Raise e,
     Print ("Error fetching order " ++ Py.str order_id ++ " from "
            ++ store_name self ++ ": " ++ exn_str e)
     :: OrderGet (base_url self ++ "/orders/" ++ Py.str order_id) :: t).
Proof.
  intros Hfail.
  unfold get_order_details, try_except, bind, requests_get.
  rewrite Hfail. reflexivity.
Qed.

Lemma get_order_details_propagates_witness :
  get_order_details order_api_down wilson_us (PStr "1001") []
  = (Raise (RequestException "Connection refused"),
     [ Print "Error fetching order 1001 from h1: Connection refused";
       OrderGet "https://api.bigcommerce.com/stores/h1/v2/orders/1001" ]).
Proof.
  apply (get_order_details_propagates order_api_down wilson_us (PStr "1001") []).
  reflexivity.
Defined.

(* ===================================================================== *)
(** ** Contact matcher *)
(* ===================================================================== *)

Lemma entry_clean_phone_run phone t :
  (if truthy phone then lift (_clean_phone phone) else ret None) t
  = (entry_clean_phone phone, t).
Proof. unfold entry_clean_phone. destruct (truthy phone); reflexivity. Qed.

Lemma clean_phone_truthy_opt o :
  truthy_opt o = true ->
  _clean_phone (of_opt o) = Ret (Some (re_sub_backslash_D (get_or o ""))).
Proof.
  destruct o as [s|]; [|discriminate]. cbn [truthy_opt of_opt get_or].
  intros Hs. unfold _clean_phone. cbn [truthy]. rewrite Hs. reflexivity.
Qed.

(** A phone that is a string or absent is cleaned without an exception. *)
Lemma entry_clean_phone_string o :
  entry_clean_phone (of_opt o)
  = Ret (if truthy_opt o then Some (re_sub_backslash_D (get_or o "")) else None).
Proof.
  unfold entry_clean_phone. destruct o as [s|]; [|reflexivity].
  cbn [of_opt truthy truthy_opt get_or].
  destruct (negb (s =? "")) eqn:Hs; [|reflexivity].
  unfold _clean_phone. cbn [truthy]. rewrite Hs. reflexivity.
Qed.

Lemma option_string_eqb_spec x y :
  reflect (x = y) (option_string_eqb x y).
Proof.
  destruct x as [a|], y as [b|]; cbn; try (constructor; congruence).
  destruct (String.eqb_spec a b); constructor; congruence.
Qed.

(** The three stages of the matcher, when the first two come back empty
    handed and the third finds the record [m]: the result is [m] with its
    review fields rewritten. *)
Lemma email_stage W self email phone cp t t1 t2 m :
  entry_clean_phone phone = Ret cp ->
  (if truthy_opt cp
   then _search_customer_perfect_match W self email (get_or cp "")
   else ret None) t = (Ret None, t1) ->
  _search_customer_email_only W self email t1 = (Ret (Some m), t2) ->
  search_contact_by_email_and_phone W self email phone t
  = (Ret (if truthy_opt cp && truthy_opt (contact_phone m)
          then if option_string_eqb
                    (Some (re_sub_backslash_D (get_or (contact_phone m) ""))) cp
               then set_review m false "Perfect match"
               else set_review m true "Phone number mismatch"
          else set_review m (truthy_opt cp)
                 (if truthy_opt cp then "Missing phone in NetSuite"
                  else "No phone provided")),
     t2).
Proof.
  intros Hcp Hperfect Hemail.
  unfold search_contact_by_email_and_phone, try_except.
  unfold bind at 1. rewrite entry_clean_phone_run, Hcp.
  unfold bind at 1. rewrite Hperfect.
  unfold bind at 1. rewrite Hemail.
  destruct (truthy_opt cp) eqn:Hsup; cbn [andb].
  - destruct (truthy_opt (contact_phone m)) eqn:Hcrm.
    + unfold bind, lift. rewrite (clean_phone_truthy_opt _ Hcrm).
      destruct (option_string_eqb _ cp); reflexivity.
    + reflexivity.
  - reflexivity.
Qed.

(** C5.  An email-only match: the perfect-match stage produced nothing on
    the way from trace [t] to [t1], and the email-only query returned the
    record [m].  "The caller supplied a phone" is read as the matcher
    reads it: the phone, cleaned on entry, is not empty ([cp] is truthy).
    Then
    - a supplied phone against a CRM phone that differs from it after
      normalisation (in the digit-only form of the specification, or in
      the form [_clean_phone] computes) is flagged "Phone number mismatch";
    - a supplied phone against a record without phone is flagged
      "Missing phone in NetSuite";
    - no supplied phone gives "No phone provided", not flagged. *)
Theorem email_only_match_annotation W self email (phone : option string)
    cp t t1 t2 m :
  entry_clean_phone (of_opt phone) = Ret cp ->
  (if truthy_opt cp
   then _search_customer_perfect_match W self email (get_or cp "")
   else ret None) t = (Ret None, t1) ->
  _search_customer_email_only W self email t1 = (Ret (Some m), t2) ->
  exists r,
    search_contact_by_email_and_phone W self email (of_opt phone) t
      = (Ret r, t2) /\
    found r = true /\
    (truthy_opt cp = true -> truthy_opt (contact_phone m) = true ->
     spec_clean_phone (contact_phone m) <> spec_clean_phone phone \/
     _clean_phone (of_opt (contact_phone m)) <> Ret cp ->
     manual_verification r = true /\
     review_reason r = "Phone number mismatch") /\
    (truthy_opt cp = true -> truthy_opt (contact_phone m) = false ->
     manual_verification r = true /\
     review_reason r = "Missing phone in NetSuite") /\
    (truthy_opt cp = false ->
     manual_verification r = false /\
     review_reason r = "No phone provided").
Proof.
  intros Hcp Hperfect Hemail.
  eexists. split; [exact (email_stage _ _ _ _ _ _ _ _ _ Hcp Hperfect Hemail)|].
  destruct (execute_some _ _ _ _ _ _ _ Hemail) as (Hfound & _).
  split; [destruct (truthy_opt cp && truthy_opt (contact_phone m));
          [destruct (option_string_eqb _ cp)|]; exact Hfound|].
  split; [|split].
  - intros Hsup Hcrm Hdiff. rewrite Hsup, Hcrm. cbn [andb].
    destruct (option_string_eqb_spec
                (Some (re_sub_backslash_D (get_or (contact_phone m) ""))) cp)
      as [Heq|Hne]; [exfalso|split; reflexivity].
    destruct Hdiff as [Hspec|Hcode].
    + apply Hspec.
      rewrite entry_clean_phone_string in Hcp. injection Hcp as Hcp.
      destruct phone as [p|]; [|subst cp; discriminate].
      destruct (contact_phone m) as [q|]; [|discriminate].
      cbn [truthy_opt get_or] in *. rewrite <- Hcp in Heq.
      destruct (negb (p =? "")) eqn:Hp; [|discriminate].
      injection Heq as Heq. cbn [spec_clean_phone].
      apply negb_true_iff in Hp, Hcrm. rewrite Hp, Hcrm.
      rewrite <- (digits_only_re_sub q), Heq, digits_only_re_sub.
      reflexivity.
    + apply Hcode. rewrite (clean_phone_truthy_opt _ Hcrm), Heq. reflexivity.
  - intros Hsup Hcrm. rewrite Hsup, Hcrm. split; reflexivity.
  - intros Hsup. rewrite Hsup. split; reflexivity.
Qed.

Lemma email_only_match_annotation_witness :
  (exists r t2,
     search_contact_by_email_and_phone
       (world_of (ann (Some "555-9999") (Some "Jane Roe")) PNone all_ok)
       netsuite0 (PStr "ann@example.com") (PStr "555-1234") [] = (Ret r, t2) /\
     manual_verification r = true /\
     review_reason r = "Phone number mismatch") /\
  (exists r t2,
     search_contact_by_email_and_phone
       (world_of (ann None (Some "Jane Roe")) PNone all_ok)
       netsuite0 (PStr "ann@example.com") (PStr "555-1234") [] = (Ret r, t2) /\
     manual_verification r = true /\
     review_reason r = "Missing phone in NetSuite") /\
  (exists r t2,
     search_contact_by_email_and_phone
       (world_of (ann None (Some "Jane Roe")) PNone all_ok)
       netsuite0 (PStr "ann@example.com") PNone [] = (Ret r, t2) /\
     manual_verification r = false /\
     review_reason r = "No phone provided").
Proof.
  split; [|split].
  - edestruct (email_only_match_annotation
                 (world_of (ann (Some "555-9999") (Some "Jane Roe")) PNone all_ok)
                 netsuite0 (PStr "ann@example.com") (Some "555-1234"))
      as (r & Hrun & _ & Hcase & _).
    + reflexivity.
    + reflexivity.
    + reflexivity.
    + exists r. eexists. split; [exact Hrun|].
      apply Hcase; [reflexivity|reflexivity|].
      left. intros H. vm_compute in H. discriminate H.
  - edestruct (email_only_match_annotation
                 (world_of (ann None (Some "Jane Roe")) PNone all_ok)
                 netsuite0 (PStr "ann@example.com") (Some "555-1234"))
      as (r & Hrun & _ & _ & Hcase & _).
    + reflexivity.
    + reflexivity.
    + reflexivity.
    + exists r. eexists. split; [exact Hrun|].
      apply Hcase; reflexivity.
  - edestruct (email_only_match_annotation
                 (world_of (ann None (Some "Jane Roe")) PNone all_ok)
                 netsuite0 (PStr "ann@example.com") None)
      as (r & Hrun & _ & _ & _ & Hcase).
    + reflexivity.
    + reflexivity.
    + reflexivity.
    + exists r. eexists. split; [exact Hrun|].
      apply Hcase; reflexivity.
Defined.

(** C10.  The fallback can itself report a perfect match.  Whenever the
    caller supplied a phone ([cp], the phone cleaned on entry, is truthy),
    the perfect-match query produced no result, and the phone of the
    email-only record [m] equals the caller's once both have gone through
    [_clean_phone], the matcher returns [m] relabelled "Perfect match"
    and not flagged for review. *)
Theorem fallback_reports_perfect_match W self email (phone : option string)
    cp t t1 t2 m :
  entry_clean_phone (of_opt phone) = Ret cp ->
  truthy_opt cp = true ->
  _search_customer_perfect_match W self email (get_or cp "") t
    = (Ret None, t1) ->
  _search_customer_email_only W self email t1 = (Ret (Some m), t2) ->
  _clean_phone (of_opt (contact_phone m)) = Ret cp ->
  search_contact_by_email_and_phone W self email (of_opt phone) t
    = (Ret (set_review m false "Perfect match"), t2) /\
  found (set_review m false "Perfect match") = true /\
  manual_verification (set_review m false "Perfect match") = false /\
  review_reason (set_review m false "Perfect match") = "Perfect match".
Proof.
  intros Hcp Hsup Hperfect Hemail Hsame.
  assert (Hcrm : truthy_opt (contact_phone m) = true).
  { destruct (truthy_opt (contact_phone m)) eqn:Hcrm; [reflexivity|].
    destruct (contact_phone m) as [q|]; cbn [of_opt] in Hsame.
    - unfold _clean_phone in Hsame. cbn [truthy truthy_opt] in *.
      rewrite Hcrm in Hsame. injection Hsame as <-. discriminate.
    - injection Hsame as <-. discriminate. }
  split.
  - rewrite (email_stage W self email (of_opt phone) cp t t1 t2 m Hcp);
      [|rewrite Hsup; exact Hperfect|exact Hemail].
    rewrite Hsup, Hcrm. cbn [andb].
    rewrite (clean_phone_truthy_opt _ Hcrm) in Hsame. injection Hsame as <-.
    destruct (option_string_eqb_spec
                (Some (re_sub_backslash_D (get_or (contact_phone m) "")))
                (Some (re_sub_backslash_D (get_or (contact_phone m) ""))))
      as [_|Hne]; [reflexivity|congruence].
  - destruct (execute_some _ _ _ _ _ _ _ Hemail) as (Hfound & _).
    repeat split. exact Hfound.
Qed.

Lemma fallback_reports_perfect_match_witness :
  exists r t2,
    search_contact_by_email_and_phone
      (world_of (ann (Some "555-1234") (Some "Jane Roe")) PNone all_ok)
      netsuite0 (PStr "ann@example.com") (PStr "555-1234") [] = (Ret r, t2) /\
    In (CustomerPost (query_base_url netsuite0 ++ "/suiteql")
          (EmailOnlyQuery "ann@example.com")) t2 /\
    manual_verification r = false /\
    review_reason r = "Perfect match".
Proof.
  edestruct (fallback_reports_perfect_match
               (world_of (ann (Some "555-1234") (Some "Jane Roe")) PNone all_ok)
               netsuite0 (PStr "ann@example.com") (Some "555-1234"))
    as (Hrun & _ & Hmv & Hreason).
  - reflexivity.
  - reflexivity.
  - reflexivity.
  - reflexivity.
  - reflexivity.
  - eexists. eexists. split; [exact Hrun|].
    split; [left; reflexivity|]. split; [exact Hmv|exact Hreason].
Defined.






Lemma returns_perfect_stage W self email (cp : option string) :
  returns (if truthy_opt cp
           then _search_customer_perfect_match W self email (get_or cp "")
           else ret None).
Proof.
  unfold _search_customer_perfect_match. auto with total.
Qed.

(** Every way the matcher can end.  It always returns; its result is the
    search-error dict exactly when cleaning the caller's phone raised, and
    otherwise one of five annotated outcomes. *)
Lemma search_contact_cases W self email phone t :
  exists r t',
    search_contact_by_email_and_phone W self email phone t = (Ret r, t') /\
    ((exists e,
        entry_clean_phone phone = Raise e /\
        r = not_found_result true ("Search error: " ++ exn_str e)) \/
     (exists cp,
        entry_clean_phone phone = Ret cp /\
        ((found r = true /\ manual_verification r = false /\
          review_reason r = "Perfect match" /\ truthy_opt cp = true) \/
         (found r = true /\ manual_verification r = true /\
          review_reason r = "Phone number mismatch" /\ truthy_opt cp = true /\
          truthy_opt (contact_phone r) = true) \/
         (found r = true /\ manual_verification r = true /\
          review_reason r = "Missing phone in NetSuite" /\
          truthy_opt cp = true /\ truthy_opt (contact_phone r) = false) \/
         (found r = true /\ manual_verification r = false /\
          review_reason r = "No phone provided" /\ truthy_opt cp = false) \/
         r = not_found_result true "No NetSuite record found"))).
Proof.
  destruct (entry_clean_phone phone) as [cp|e] eqn:Hcp.
  - destruct (returns_perfect_stage W self email cp t) as (pm & t1 & Hperfect).
    destruct (returns_execute_search_query W self
                (EmailOnlyQuery (Py.str email)) "Email match" t1)
      as (em & t2 & Hemail).
    destruct pm as [r|].
    + (* the perfect-match query answered *)
      exists r, t1. split.
      * unfold search_contact_by_email_and_phone, try_except.
        unfold bind at 1. rewrite entry_clean_phone_run, Hcp.
        unfold bind. rewrite Hperfect. reflexivity.
      * right. exists cp. split; [reflexivity|]. left.
        destruct (truthy_opt cp); [|discriminate].
        destruct (execute_some _ _ _ _ _ _ _ Hperfect) as (Hf & Hm & Hr & _).
        repeat split; assumption.
    + destruct em as [m|].
      * (* the email-only query answered *)
        eexists _, t2. split; [exact (email_stage _ _ _ _ _ _ _ _ _ Hcp Hperfect Hemail)|].
        right. exists cp. split; [reflexivity|].
        destruct (execute_some _ _ _ _ _ _ _ Hemail) as (Hf & _).
        destruct (truthy_opt cp) eqn:Hsup;
          destruct (truthy_opt (contact_phone m)) eqn:Hcrm; cbn [andb].
        -- destruct (option_string_eqb _ cp).
           ++ left. repeat split; assumption.
           ++ right; left. repeat split; assumption.
        -- right; right; left. repeat split; assumption.
        -- right; right; right; left. repeat split; assumption.
        -- right; right; right; left. repeat split; assumption.
      * (* neither query answered *)
        eexists _, t2. split.
        -- unfold search_contact_by_email_and_phone, try_except.
           unfold bind at 1. rewrite entry_clean_phone_run, Hcp.
           unfold bind at 1. rewrite Hperfect.
           unfold bind, _search_customer_email_only. rewrite Hemail.
           reflexivity.
        -- right. exists cp. split; [reflexivity|].
           right; right; right; right. reflexivity.
  - eexists _, _. split.
    + unfold search_contact_by_email_and_phone, try_except.
      unfold bind at 1. rewrite entry_clean_phone_run, Hcp.
      reflexivity.
    + left. exists e. split; reflexivity.
Qed.

Lemma search_error_prefix s msg :
  (s = "Perfect match" \/ s = "Phone number mismatch" \/
   s = "Missing phone in NetSuite" \/ s = "No phone provided" \/
   s = "No NetSuite record found") ->
  s <> "Search error: " ++ msg.
Proof.
  intros [ -> | [ -> | [ -> | [ -> | -> ] ] ] ]; cbn; discriminate.
Qed.

(** The interpolated values of a query hold no quote. *)
Lemma select_customers_where W q :
  has_quote (match q with
             | PerfectMatchQuery e p => e ++ p
             | EmailOnlyQuery e => e
             end) = false ->
  select_customers W q = filter (where_clause q) (customers W).
Proof.
  destruct q as [e p|e]; cbn [select_customers where_clause]; intros H.
  - apply has_quote_app in H as [He Hp].
    rewrite (sql_literal_quote_free e He), (sql_literal_quote_free p Hp).
    reflexivity.
  - rewrite (sql_literal_quote_free e H). reflexivity.
Qed.

Lemma selected_row W q c rest :
  has_quote (match q with
             | PerfectMatchQuery e p => e ++ p
             | EmailOnlyQuery e => e
             end) = false ->
  select_customers W q = c :: rest ->
  In c (customers W) /\ where_clause q c = true.
Proof.
  intros Hq. rewrite (select_customers_where W q Hq). intros Hsel.
  apply filter_In. rewrite Hsel. left. reflexivity.
Qed.

(** The cleaned form of a phone without quote has no quote. *)
Lemma entry_clean_phone_quote_free phone cp :
  has_quote (Py.str phone) = false ->
  entry_clean_phone phone = Ret cp ->
  has_quote (get_or cp "") = false.
Proof.
  unfold entry_clean_phone, _clean_phone.
  destruct phone as [|s|z]; cbn [truthy negb Py.str].
  - intros _ H. injection H as <-. reflexivity.
  - intros Hs. destruct (negb (s =? "")); cbn [negb];
      intros H; injection H as <-; [|reflexivity].
    cbn [get_or]. apply has_quote_re_sub, Hs.
  - intros _. destruct (negb (z =? 0)%Z); cbn [negb]; intros H;
      [discriminate H|injection H as <-; reflexivity].
Qed.

Lemma digits_only_idempotent s : digits_only (digits_only s) = digits_only s.
Proof.
  induction s as [|c r IH]; [reflexivity|].
  cbn [digits_only]. destruct (is_digit c) eqn:Hc; [|exact IH].
  cbn [digits_only]. rewrite Hc, IH. reflexivity.
Qed.

(** Two non-empty phones with the same digits, one of them the phone of a
    customer with the email and a sales rep, make an exact match. *)
Lemma exact_match_intro W email c p q :
  In c (customers W) ->
  email_matches c (Py.str email) = true ->
  has_salesrep c = true ->
  c_phone c = Some q ->
  q <> "" -> p <> "" ->
  digits_only q = digits_only p ->
  spec_exact_match W email (Some p).
Proof.
  intros Hin He Hs Hq Hqne Hpne Hd.
  exists c. split; [exact Hin|]. split; [exact He|]. split; [exact Hs|].
  rewrite Hq. cbn [spec_clean_phone].
  destruct (String.eqb_spec p ""); [contradiction|].
  destruct (String.eqb_spec q ""); [contradiction|].
  split; [discriminate|rewrite Hd; reflexivity].
Qed.

(** C3, as stated, fails, in two ways.  First, the caller supplies no
    phone and the CRM record of the email has the phone [555-1234]: the
    result is not flagged ("No phone provided"), although there is no
    exact email+phone match and the phone is missing on one side only.
    Second, the caller's email is [o''brien@example.com], with a doubled
    apostrophe: pasted unescaped between quotes it is read as
    [o'brien@example.com], the customer of that other email is returned
    as a "Perfect match", not flagged, although no customer has the
    caller's email. *)
Lemma flag_invariant_counterexample :
  (exists r t',
     search_contact_by_email_and_phone
       (world_of (ann (Some "555-1234") (Some "Jane Roe")) PNone all_ok)
       netsuite0 (PStr "ann@example.com") (of_opt None) [] = (Ret r, t') /\
     manual_verification r = false /\
     review_reason r = "No phone provided" /\
     contact_phone r = Some "555-1234" /\
     ~ spec_flag_invariant
         (world_of (ann (Some "555-1234") (Some "Jane Roe")) PNone all_ok)
         (PStr "ann@example.com") None r) /\
  (exists r t',
     search_contact_by_email_and_phone
       (world_with
          [row "7" (Some "o'brien@example.com") (Some "5551234")
             (Some "Jane Roe")] [] env_full PNone all_ok)
       netsuite0 (PStr "o''brien@example.com") (PStr "5551234") []
     = (Ret r, t') /\
     manual_verification r = false /\
     review_reason r = "Perfect match" /\
     contact_email r = Some "o'brien@example.com" /\
     ~ spec_flag_invariant
         (world_with
            [row "7" (Some "o'brien@example.com") (Some "5551234")
               (Some "Jane Roe")] [] env_full PNone all_ok)
         (PStr "o''brien@example.com") (Some "5551234") r).
Proof.
  split.
  - eexists _, _. split; [reflexivity|].
    repeat split.
    intros [_ Hfalse]. destruct (Hfalse eq_refl) as [Hexact|Hboth].
    + destruct Hexact as (c & _ & _ & _ & Hsupplied & _).
      apply Hsupplied. reflexivity.
    + destruct Hboth as (_ & _ & Hcrm). discriminate Hcrm.
  - eexists _, _. split; [reflexivity|].
    repeat split.
    intros [_ Hfalse]. destruct (Hfalse eq_refl) as [Hexact|Hboth].
    + destruct Hexact as (c & [<-|[]] & Hmail & _).
      discriminate Hmail.
    + destruct Hboth as (_ & Hcaller & _). discriminate Hcaller.
Qed.

(** C3, amended.  For an email and a phone that hold no quote character,
    the matcher returns a result in which [manual_verification] is true
    whenever the reason is "Phone number mismatch", "Missing phone in
    NetSuite" or "No NetSuite record found", and is false only for an
    exact email+phone match or for an email-only match for which the
    caller supplied no phone (the phone, cleaned on entry, is empty or
    absent) -- whether the CRM record has a phone or not. *)
Theorem manual_verification_by_reason W self email (phone : option string) t :
  has_quote (Py.str email) = false ->
  has_quote (get_or phone "") = false ->
  exists r t',
    search_contact_by_email_and_phone W self email (of_opt phone) t
      = (Ret r, t') /\
    (review_reason r = "Phone number mismatch" \/
     review_reason r = "Missing phone in NetSuite" \/
     review_reason r = "No NetSuite record found" ->
     manual_verification r = true) /\
    (manual_verification r = false ->
     spec_exact_match W email phone \/
     (found r = true /\
      review_reason r = "No phone provided" /\
      exists cp,
        entry_clean_phone (of_opt phone) = Ret cp /\ truthy_opt cp = false)).
Proof.
  intros Hqe Hqp.
  pose proof (entry_clean_phone_string phone) as Hcp.
  set (cp := if truthy_opt phone
             then Some (re_sub_backslash_D (get_or phone "")) else None) in Hcp.
  assert (Hqc : has_quote (get_or cp "") = false).
  { subst cp. destruct (truthy_opt phone); [|reflexivity].
    cbn [get_or]. apply has_quote_re_sub, Hqp. }
  destruct (returns_perfect_stage W self email cp t) as (pm & t1 & Hperfect).
  destruct pm as [r|].
  - (* the perfect-match query answered *)
    assert (Hsup : truthy_opt cp = true)
      by (destruct (truthy_opt cp); [reflexivity|discriminate Hperfect]).
    rewrite Hsup in Hperfect.
    exists r, t1. split.
    { unfold search_contact_by_email_and_phone, try_except.
      unfold bind at 1. rewrite entry_clean_phone_run, Hcp.
      unfold bind. rewrite Hsup, Hperfect. reflexivity. }
    destruct (execute_some _ _ _ _ _ _ _ Hperfect)
      as (Hf & Hm & Hr & _ & c & rest & Hsel & Hphone & _).
    split; [intros [H|[H|H]]; rewrite Hr in H; discriminate H|].
    intros _. left.
    destruct (selected_row W
                (PerfectMatchQuery (Py.str email) (get_or cp "")) c rest
                (has_quote_app_intro _ _ Hqe Hqc) Hsel) as (Hin & Hwhere).
    cbn [where_clause] in Hwhere.
    apply andb_true_iff in Hwhere as [Hwhere Hs].
    apply andb_true_iff in Hwhere as [He Hpm].
    unfold phone_matches in Hpm. apply String.eqb_eq in Hpm.
    subst cp. destruct phone as [p|]; [|discriminate Hsup].
    cbn [truthy_opt get_or] in *.
    destruct (negb (p =? "")) eqn:Hp; [|discriminate Hsup].
    cbn [truthy_opt get_or] in *.
    assert (Hpne : p <> "") by (intros ->; discriminate Hp).
    assert (Hcne : re_sub_backslash_D p <> "")
      by (intros Hc; rewrite Hc in Hsup; discriminate Hsup).
    destruct (c_phone c) as [q|] eqn:Hq;
      [|cbn [get_or digits_only] in Hpm; congruence].
    cbn [get_or] in Hpm.
    apply (exact_match_intro W email c p q Hin He Hs Hq).
    + intros ->. cbn [digits_only] in Hpm. congruence.
    + exact Hpne.
    + rewrite <- (digits_only_re_sub p), <- Hpm, digits_only_idempotent.
      reflexivity.
  - destruct (returns_execute_search_query W self
                (EmailOnlyQuery (Py.str email)) "Email match" t1)
      as (em & t2 & Hemail).
    destruct em as [m|].
    + (* the email-only query answered *)
      eexists _, t2.
      split; [exact (email_stage _ _ _ _ _ _ _ _ _ Hcp Hperfect Hemail)|].
      destruct (execute_some _ _ _ _ _ _ _ Hemail)
        as (Hf & _ & _ & _ & c & rest & Hsel & Hphone & _).
      destruct (truthy_opt cp) eqn:Hsup;
        destruct (truthy_opt (contact_phone m)) eqn:Hcrm; cbn [andb].
      * destruct (option_string_eqb_spec
                    (Some (re_sub_backslash_D (get_or (contact_phone m) "")))
                    cp) as [Heq|Hne];
          cbn [set_review manual_verification review_reason found].
        -- split; [intros [H|[H|H]]; discriminate H|].
           intros _. left.
           destruct (selected_row W (EmailOnlyQuery (Py.str email)) c rest
                       Hqe Hsel) as (Hin & Hwhere).
           cbn [where_clause] in Hwhere.
           apply andb_true_iff in Hwhere as [He Hs].
           subst cp. destruct phone as [p|]; [|discriminate Hsup].
           cbn [truthy_opt get_or] in *.
           destruct (negb (p =? "")) eqn:Hp; [|discriminate Hsup].
           injection Heq as Heq.
           rewrite Hphone in *.
           destruct (c_phone c) as [q|] eqn:Hq; [|discriminate Hcrm].
           cbn [truthy_opt get_or] in *.
           apply (exact_match_intro W email c p q Hin He Hs Hq).
           ++ intros ->. discriminate Hcrm.
           ++ intros ->. discriminate Hp.
           ++ rewrite <- (digits_only_re_sub q), Heq, digits_only_re_sub.
              reflexivity.
        -- split; [intros _; reflexivity|intros H; discriminate H].
      * cbn [set_review manual_verification review_reason found].
        split; [intros _; reflexivity|intros H; discriminate H].
      * cbn [set_review manual_verification review_reason found].
        split; [intros [H|[H|H]]; discriminate H|].
        intros _. right. split; [exact Hf|]. split; [reflexivity|].
        exists cp. split; [exact Hcp|exact Hsup].
      * cbn [set_review manual_verification review_reason found].
        split; [intros [H|[H|H]]; discriminate H|].
        intros _. right. split; [exact Hf|]. split; [reflexivity|].
        exists cp. split; [exact Hcp|exact Hsup].
    + (* neither query answered *)
      eexists _, t2. split.
      * unfold search_contact_by_email_and_phone, try_except.
        unfold bind at 1. rewrite entry_clean_phone_run, Hcp.
        unfold bind at 1. rewrite Hperfect.
        unfold bind, _search_customer_email_only. rewrite Hemail.
        reflexivity.
      * cbn [not_found_result manual_verification].
        split; [intros _; reflexivity|intros H; discriminate H].
Qed.

Lemma manual_verification_by_reason_witness :
  exists r t',
    search_contact_by_email_and_phone
      (world_of (ann (Some "555-1234") (Some "Jane Roe")) PNone all_ok)
      netsuite0 (PStr "ann@example.com") (of_opt None) [] = (Ret r, t') /\
    (review_reason r = "Phone number mismatch" \/
     review_reason r = "Missing phone in NetSuite" \/
     review_reason r = "No NetSuite record found" ->
     manual_verification r = true) /\
    (manual_verification r = false ->
     spec_exact_match
       (world_of (ann (Some "555-1234") (Some "Jane Roe")) PNone all_ok)
       (PStr "ann@example.com") None \/
     (found r = true /\
      review_reason r = "No phone provided" /\
      exists cp,
        entry_clean_phone (of_opt None) = Ret cp /\ truthy_opt cp = false)).
Proof.
  apply (manual_verification_by_reason
           (world_of (ann (Some "555-1234") (Some "Jane Roe")) PNone all_ok)
           netsuite0 (PStr "ann@example.com") None []);
    reflexivity.
Defined.

(** When no request gets a 200 answer, both queries are absorbed as empty
    and the search ends as "not found". *)
Lemma search_contact_unreachable W self email phone cp t :
  entry_clean_phone phone = Ret cp ->
  (forall n, net W n <> Status 200) ->
  exists t',
    search_contact_by_email_and_phone W self email phone t
    = (Ret (not_found_result true "No NetSuite record found"), t').
Proof.
  intros Hcp Hdown.
  assert (Hstage : exists t1,
             (if truthy_opt cp
              then _search_customer_perfect_match W self email (get_or cp "")
              else ret None) t = (Ret None, t1)).
  { destruct (truthy_opt cp); [|eexists; reflexivity].
    apply execute_unreachable, Hdown. }
  destruct Hstage as (t1 & Hstage).
  destruct (execute_unreachable W self (EmailOnlyQuery (Py.str email))
              "Email match" t1 (Hdown _)) as (t2 & Hemail).
  exists t2.
  unfold search_contact_by_email_and_phone, try_except.
  unfold bind at 1. rewrite entry_clean_phone_run, Hcp.
  unfold bind at 1. rewrite Hstage.
  unfold bind, _search_customer_email_only. rewrite Hemail.
  reflexivity.
Qed.

(** C7, as stated, fails.  Every request to the CRM times out; the matcher
    answers "No NetSuite record found", not the search-error result built
    from the timeout. *)
Lemma search_error_counterexample :
  (exists t',
     search_contact_by_email_and_phone
       (world_of (ann (Some "5551234") (Some "Jane Roe")) PNone all_down)
       netsuite0 (PStr "ann@example.com") (PStr "5551234") []
     = (Ret (not_found_result true "No NetSuite record found"), t')) /\
  ~ spec_failure_becomes_search_error
      (world_of (ann (Some "5551234") (Some "Jane Roe")) PNone all_down)
      netsuite0 (PStr "ann@example.com") (PStr "5551234") [].
Proof.
  split.
  - eexists. reflexivity.
  - intros H. destruct (H _ eq_refl) as (t' & Hrun).
    vm_compute in Hrun. discriminate Hrun.
Qed.

(** C7, amended.  The matcher never raises: on every input and in every
    world it returns a result.  A request that fails or is refused is
    absorbed by the query helper as an empty answer and the search goes
    on; when no request succeeds the result is found=false,
    manual_verification=true, "No NetSuite record found".  The result is
    the search-error dict -- found=false, manual_verification=true,
    "Search error: <message>" -- exactly when the exception arose outside
    the query helper, in cleaning a caller's phone that is not a string. *)
Theorem search_contact_never_raises W self email phone t :
  exists r t',
    search_contact_by_email_and_phone W self email phone t = (Ret r, t') /\
    match entry_clean_phone phone with
    | Raise e => r = not_found_result true ("Search error: " ++ exn_str e)
    | Ret _ =>
        (forall msg, review_reason r <> "Search error: " ++ msg) /\
        ((forall n, net W n <> Status 200) ->
         r = not_found_result true "No NetSuite record found")
    end.
Proof.
  destruct (search_contact_cases W self email phone t)
    as (r & t' & Hrun & Hcases).
  exists r, t'. split; [exact Hrun|].
  destruct Hcases as [(e & -> & ->)|(cp & Hcp & Hcases)]; [reflexivity|].
  rewrite Hcp. split.
  - intros msg. apply search_error_prefix.
    destruct Hcases as [(_ & _ & Hr & _)|[(_ & _ & Hr & _)|
      [(_ & _ & Hr & _)|[(_ & _ & Hr & _)| -> ]]]]; auto 6.
  - intros Hdown.
    destruct (search_contact_unreachable W self email phone cp t Hcp Hdown)
      as (t'' & Hrun').
    rewrite Hrun in Hrun'. injection Hrun' as -> _. reflexivity.
Qed.

(** C4 (the code departs from the claim).  The CRM holds a customer with
    the caller's email, a sales rep and the phone [5551234]; the caller
    supplies [555-1234], the same phone once normalised, and every request
    succeeds.  The perfect-match query is sent first, with the caller's
    phone still carrying its dash, and selects nothing; the fallback then
    flags the record "Phone number mismatch". *)
Theorem perfect_match_missed_on_formatted_phone :
  spec_exact_match
    (world_of (ann (Some "5551234") (Some "Jane Roe")) PNone all_ok)
    (PStr "ann@example.com") (Some "555-1234") /\
  exists r,
    search_contact_by_email_and_phone
      (world_of (ann (Some "5551234") (Some "Jane Roe")) PNone all_ok)
      netsuite0 (PStr "ann@example.com") (PStr "555-1234") []
    = (Ret r,
       [ CustomerPost (query_base_url netsuite0 ++ "/suiteql")
           (EmailOnlyQuery "ann@example.com");
         CustomerPost (query_base_url netsuite0 ++ "/suiteql")
           (PerfectMatchQuery "ann@example.com" "555-1234") ]) /\
    found r = true /\
    manual_verification r = true /\
    review_reason r = "Phone number mismatch".
Proof.
  split.
  - exists (ann (Some "5551234") (Some "Jane Roe")).
    repeat split; [left; reflexivity|discriminate].
  - eexists. split; [reflexivity|]. repeat split.
Qed.

(** Where the perfect match is found: a caller's phone made of digits only
    goes through [_clean_phone] unchanged, and if the email holds no
    quote, the first request succeeds and the CRM holds a customer with
    the email, a sales rep and that phone once normalised, the first query
    answers and the result is "Perfect match", not flagged. *)
Lemma perfect_match_on_digit_phone W self email p t c :
  isdigit p = true ->
  has_quote (Py.str email) = false ->
  net W (request_count t) = Status 200 ->
  In c (customers W) ->
  email_matches c (Py.str email) = true ->
  has_salesrep c = true ->
  digits_only (get_or (c_phone c) "") = p ->
  exists r t',
    search_contact_by_email_and_phone W self email (PStr p) t = (Ret r, t') /\
    found r = true /\
    manual_verification r = false /\
    review_reason r = "Perfect match".
Proof.
  intros Hp Hquote Hnet Hin Hemail Hrep Hphone.
  apply andb_true_iff in Hp as [Hne Hdigits].
  assert (Hcp : entry_clean_phone (PStr p) = Ret (Some p)).
  { unfold entry_clean_phone. cbn [truthy]. rewrite Hne.
    apply clean_phone_without_backslash.
    - intros ->. discriminate Hne.
    - apply all_digits_no_backslash, Hdigits. }
  assert (Hsel : exists c' rest,
             select_customers W (PerfectMatchQuery (Py.str email) p)
             = c' :: rest).
  { cbn [select_customers].
    rewrite (sql_literal_quote_free _ Hquote),
      (sql_literal_quote_free p (all_digits_no_quote p Hdigits)).
    destruct (filter _ (customers W)) as [|c' rest] eqn:Hf; [|eauto].
    exfalso.
    assert (Hc : In c (filter
                (fun c => email_matches c (Py.str email)
                          && phone_matches c p && has_salesrep c)
                (customers W))).
    { apply filter_In. split; [exact Hin|].
      unfold phone_matches. rewrite Hemail, Hrep, Hphone, String.eqb_refl.
      reflexivity. }
    rewrite Hf in Hc. exact Hc. }
  destruct Hsel as (c' & rest & Hsel).
  destruct (execute_first_row W self _ "Perfect match" t c' rest Hnet Hsel)
    as (m & t' & Hrun & Hf & Hm & Hr & _).
  exists m, t'. split; [|repeat split; assumption].
  unfold search_contact_by_email_and_phone, try_except.
  unfold bind at 1. rewrite entry_clean_phone_run, Hcp.
  cbn [truthy_opt get_or]. rewrite Hne.
  unfold bind, _search_customer_perfect_match. rewrite Hrun. reflexivity.
Qed.

(* ===================================================================== *)
(** ** Attribution orchestrator *)
(* ===================================================================== *)

(** Opens [process_klaviyo_order] on a payload whose [data] object is
    known. *)
Ltac open_process :=
  unfold process_klaviyo_order, try_except;
  unfold bind at 1; unfold lift at 1; cbn [payload_data].




(** The ledger step: it always returns; without a configured endpoint it
    only logs and reports success, otherwise it posts the row once and
    reports whether the answer was a 200. *)
Lemma send_to_sheets_cases W data t :
  exists sent t',
    send_to_sheets W data t = (Ret sent, t') /\
    if truthy_opt (getenv W "GOOGLE_WEBAPP_URL")
    then ledger_writes t' = S (ledger_writes t) /\
         In (SheetPost (get_or (getenv W "GOOGLE_WEBAPP_URL") "") data) t'
    else sent = true /\ ledger_writes t' = ledger_writes t.
Proof.
  unfold send_to_sheets, try_except, bind, post_sheet, print, ret.
  destruct (truthy_opt (getenv W "GOOGLE_WEBAPP_URL")); cbn [negb].
  - destruct (net W (request_count t)) as [e|code].
    + eexists _, _. split; [reflexivity|].
      split; [reflexivity|right; left; reflexivity].
    + destruct (code =? 200)%Z; eexists _, _; (split; [reflexivity|]);
        (split; [reflexivity|right; left; reflexivity]).
  - eexists _, _. repeat split.
Qed.

(** C8.  Take a run of the orchestrator that fetched the order [od] and
    obtained the contact-match result [cr].
    - If no sales rep was found, or the sales rep is one of the
      "unassigned" sentinels, the run returns the status "ignored" with
      the reason of [cr] and issues no ledger write.
    - A success status, or a ledger write, occurs only when a sales rep
      was found and is not a sentinel.
    - A success status carries the payload's order id, the sales rep of
      [cr] and its verification flag; with a ledger endpoint configured
      it comes with exactly one write, of a row carrying that sales rep
      and flag. *)
Theorem attribution_decision W kd t od cr t2 :
  reaches_match W kd t od cr t2 ->
  exists resp t',
    process_klaviyo_order W kd t = (Ret resp, t') /\
    (found cr = false \/ is_unassigned (sales_rep cr) = true ->
     resp = Ignored (kd_order_id kd) (review_reason cr) /\
     ledger_writes t' = ledger_writes t) /\
    ((exists oid rep mv, resp = Success oid rep mv) \/
     ledger_writes t' <> ledger_writes t ->
     found cr = true /\ is_unassigned (sales_rep cr) = false) /\
    (forall oid rep mv,
       resp = Success oid rep mv ->
       oid = kd_order_id kd /\ rep = sales_rep cr /\
       mv = manual_verification cr /\
       (truthy_opt (getenv W "GOOGLE_WEBAPP_URL") = true ->
        ledger_writes t' = S (ledger_writes t) /\
        exists row,
          In (SheetPost (get_or (getenv W "GOOGLE_WEBAPP_URL") "") row) t' /\
          sr_sales_rep row = sales_rep cr /\
          sr_manual_verification row = manual_verification cr /\
          sr_review_reason row = review_reason cr /\
          sr_order_id row = Py.str (od_id od))).
Proof.
  intros (Hid & Hstore & bc & ns & t0 & t1 & Hbc & Hprint & Hfetch & Hns & Hsearch).
  assert (Hw2 : ledger_writes t2 = ledger_writes t).
  { pose proof (preserves_search_contact W ns (od_email od) (od_phone od) t1) as H2.
    pose proof (preserves_get_order_details W bc (kd_order_id kd) t0) as H1.
    pose proof (preserves_print
                  ("Processing order " ++ Py.str (kd_order_id kd) ++ " from "
                   ++ Py.str (kd_store kd)) t) as H0.
    rewrite Hsearch in H2. rewrite Hfetch in H1. rewrite Hprint in H0.
    cbn [snd] in *. congruence. }
  open_process.
  rewrite Hid, Hstore. cbn [negb].
  unfold bind at 1. rewrite Hprint.
  unfold bind at 1. unfold lift at 1. rewrite Hbc.
  unfold bind at 1. rewrite Hfetch.
  unfold bind at 1. rewrite Hns.
  unfold bind at 1. rewrite Hsearch.
  destruct (found cr && negb (is_unassigned (sales_rep cr))) eqn:Hattr.
  - (* attributed *)
    apply andb_true_iff in Hattr as [Hfound Hrep].
    apply negb_true_iff in Hrep.
    unfold bind at 1. unfold print at 1.
    set (t3 := Print _ :: t2).
    destruct (returns_format_bigcommerce_date W (od_order_date od) t3)
      as (d & t4 & Hdate).
    pose proof (preserves_format_bigcommerce_date W (od_order_date od) t3)
      as Hw4. rewrite Hdate in Hw4. cbn [snd] in Hw4.
    unfold bind at 1. rewrite Hdate.
    match goal with
    | |- context [send_to_sheets W ?row] =>
        destruct (send_to_sheets_cases W row t4) as (sent & t5 & Hsend & Hledger);
        set (the_row := row) in *
    end.
    unfold bind. rewrite Hsend.
    assert (Hw3 : ledger_writes t3 = ledger_writes t) by exact Hw2.
    destruct sent.
    + eexists _, t5. split; [reflexivity|].
      split; [intros [H|H]; congruence|].
      split; [intros _; split; assumption|].
      intros oid rep mv Heq. injection Heq as <- <- <-.
      repeat split. 
      * destruct (truthy_opt (getenv W "GOOGLE_WEBAPP_URL"));
          [|discriminate]. destruct Hledger as [Hl _]. congruence.
      * destruct (truthy_opt (getenv W "GOOGLE_WEBAPP_URL"));
          [|discriminate]. destruct Hledger as [_ Hin].
        exists the_row. repeat split. exact Hin.
    + eexists _, t5. split; [reflexivity|].
      split; [intros [H|H]; congruence|].
      split; [intros _; split; assumption|].
      intros oid rep mv Heq. discriminate Heq.
  - (* ignored *)
    eexists _, _. split; [reflexivity|].
    split; [intros _; split; [reflexivity|exact Hw2]|].
    split.
    + intros [(oid & rep & mv & Heq)|Hw]; [discriminate Heq|].
      exfalso. apply Hw. exact Hw2.
    + intros oid rep mv Heq. discriminate Heq.
Qed.

Lemma attribution_decision_witness :
  (exists t',
     process_klaviyo_order
       (world_of (ann (Some "5551234") None) (PStr "5551234") all_ok)
       {| kd_order_id := PStr "1001"; kd_store := PStr "Wilson US" |} []
     = (Ret (Ignored (PStr "1001") "No NetSuite record found"), t') /\
     ledger_writes t' = 0%nat) /\
  (exists t',
     process_klaviyo_order
       (world_of (ann (Some "5551234") (Some "")) (PStr "5551234") all_ok)
       {| kd_order_id := PStr "1001"; kd_store := PStr "Wilson US" |} []
     = (Ret (Ignored (PStr "1001") "Perfect match"), t') /\
     ledger_writes t' = 0%nat) /\
  (exists t',
     process_klaviyo_order
       (world_of (ann (Some "5551234") (Some "Jane Roe")) (PStr "5551234")
          all_ok)
       {| kd_order_id := PStr "1001"; kd_store := PStr "Wilson US" |} []
     = (Ret (Success (PStr "1001") (Some "Jane Roe") false), t') /\
     ledger_writes t' = 1%nat).
Proof.
  split; [|split].
  - edestruct (attribution_decision
                 (world_of (ann (Some "5551234") None) (PStr "5551234") all_ok)
                 {| kd_order_id := PStr "1001"; kd_store := PStr "Wilson US" |}
                 []) as (resp & t' & Hrun & Hignored & _).
    + split; [reflexivity|]. split; [reflexivity|].
      eexists _, _, _, _.
      split; [reflexivity|]. split; [reflexivity|]. split; [reflexivity|].
      split; reflexivity.
    + destruct Hignored as [-> Hw]; [left; reflexivity|].
      exists t'. split; [exact Hrun|exact Hw].
  - edestruct (attribution_decision
                 (world_of (ann (Some "5551234") (Some "")) (PStr "5551234")
                    all_ok)
                 {| kd_order_id := PStr "1001"; kd_store := PStr "Wilson US" |}
                 []) as (resp & t' & Hrun & Hignored & _).
    + split; [reflexivity|]. split; [reflexivity|].
      eexists _, _, _, _.
      split; [reflexivity|]. split; [reflexivity|]. split; [reflexivity|].
      split; reflexivity.
    + destruct Hignored as [-> Hw]; [right; reflexivity|].
      exists t'. split; [exact Hrun|exact Hw].
  - edestruct (attribution_decision
                 (world_of (ann (Some "5551234") (Some "Jane Roe"))
                    (PStr "5551234") all_ok)
                 {| kd_order_id := PStr "1001"; kd_store := PStr "Wilson US" |}
                 []) as (resp & t' & Hrun & _ & _ & Hsuccess).
    + split; [reflexivity|]. split; [reflexivity|].
      eexists _, _, _, _.
      split; [reflexivity|]. split; [reflexivity|]. split; [reflexivity|].
      split; reflexivity.
    + assert (Hresp : resp = Success (PStr "1001") (Some "Jane Roe") false).
      { vm_compute in Hrun. injection Hrun as <- _. reflexivity. }
      destruct (Hsuccess _ _ _ Hresp) as (_ & _ & _ & Hwrite).
      destruct (Hwrite eq_refl) as (Hw & _).
      exists t'. split; [rewrite <- Hresp; exact Hrun|exact Hw].
Defined.

(* ===================================================================== *)
(** ** Further properties: phone cleaning *)
(* ===================================================================== *)

(** X1.  Whatever [_clean_phone] returns for a string, it has the digits
    of the input, all of them and in the same order: cleaning never drops,
    adds or moves a digit. *)
Theorem clean_phone_preserves_digits s cleaned :
  _clean_phone (PStr s) = Ret (Some cleaned) ->
  digits_only cleaned = digits_only s.
Proof.
  unfold _clean_phone. cbn [truthy].
  destruct (negb (negb (s =? ""))); [discriminate|].
  intros H. injection H as <-. apply digits_only_re_sub.
Qed.

Lemma clean_phone_preserves_digits_witness :
  digits_only "(555) 123-4567" = digits_only "(555) 123-4567" /\
  digits_only "5\D55" = digits_only "555".
Proof.
  split.
  - apply (clean_phone_preserves_digits "(555) 123-4567" "(555) 123-4567").
    reflexivity.
  - rewrite (clean_phone_preserves_digits "5\D55" "555"); reflexivity.
Defined.

(** X2.  A non-empty phone that holds no backslash comes back from
    [_clean_phone] exactly as it went in, punctuation and spaces
    included. *)
Theorem clean_phone_unchanged_without_backslash s :
  s <> "" ->
  has_backslash s = false ->
  _clean_phone (PStr s) = Ret (Some s).
Proof. exact (clean_phone_without_backslash s). Qed.

Lemma clean_phone_unchanged_without_backslash_witness :
  _clean_phone (PStr "+1 (555) 123-4567 ext. 9")
  = Ret (Some "+1 (555) 123-4567 ext. 9").
Proof.
  apply clean_phone_unchanged_without_backslash.
  - discriminate.
  - reflexivity.
Defined.

(* ===================================================================== *)
(** ** Further properties: counting requests *)
(* ===================================================================== *)

Lemma request_count_cons ev t :
  request_count (ev :: t)
  = if is_request ev then S (request_count t) else request_count t.
Proof. unfold request_count. cbn [filter]. destruct (is_request ev); reflexivity. Qed.

Create HintDb reqs.

Section RequestFacts.

Context {A B : Type}.

Lemma at_most_ret (a : A) : at_most_requests 0 (ret a).
Proof. intros t. unfold ret. cbn [snd]. lia. Qed.

Lemma at_most_raise (e : exn) : at_most_requests 0 (@raise A e).
Proof. intros t. unfold raise. cbn [snd]. lia. Qed.

Lemma at_most_lift (r : res A) : at_most_requests 0 (lift r).
Proof. intros t. unfold lift. cbn [snd]. lia. Qed.

Lemma at_most_weaken n n' (m : M A) :
  (n <= n')%nat -> at_most_requests n m -> at_most_requests n' m.
Proof. intros Hle Hm t. specialize (Hm t). lia. Qed.

Lemma at_most_bind n1 n2 (m : M A) (k : A -> M B) :
  at_most_requests n1 m -> (forall a, at_most_requests n2 (k a)) ->
  at_most_requests (n1 + n2) (bind m k).
Proof.
  intros Hm Hk t. unfold bind. specialize (Hm t).
  destruct (m t) as [[a|e] t1]; cbn [snd] in *.
  - specialize (Hk a t1). lia.
  - lia.
Qed.

Lemma at_most_try n1 n2 (m : M A) (h : exn -> M A) :
  at_most_requests n1 m -> (forall e, at_most_requests n2 (h e)) ->
  at_most_requests (n1 + n2) (try_except m h).
Proof.
  intros Hm Hh t. unfold try_except. specialize (Hm t).
  destruct (m t) as [[a|e] t1]; cbn [snd] in *.
  - lia.
  - specialize (Hh e t1). lia.
Qed.

Lemma at_most_if n (b : bool) (m1 m2 : M A) :
  at_most_requests n m1 -> at_most_requests n m2 ->
  at_most_requests n (if b then m1 else m2).
Proof. destruct b; auto. Qed.

End RequestFacts.

Lemma at_most_print msg : at_most_requests 0 (print msg).
Proof.
  intros t. unfold print. cbn [snd].
  rewrite request_count_cons. cbn [is_request]. lia.
Qed.

Lemma at_most_print_then {A} n msg (m : M A) :
  at_most_requests n m -> at_most_requests n (bind (print msg) (fun _ => m)).
Proof. intros Hm. apply (at_most_bind 0 n); [apply at_most_print|auto]. Qed.

Lemma at_most_requests_get W url : at_most_requests 1 (requests_get W url).
Proof.
  intros t. unfold requests_get. cbn [snd].
  rewrite request_count_cons. cbn [is_request]. lia.
Qed.

Lemma at_most_post_customer_query W url q :
  at_most_requests 1 (post_customer_query W url q).
Proof.
  intros t. unfold post_customer_query. cbn [snd].
  rewrite request_count_cons. cbn [is_request]. lia.
Qed.

Lemma at_most_post_employee_query W url i :
  at_most_requests 1 (post_employee_query W url i).
Proof.
  intros t. unfold post_employee_query. cbn [snd].
  rewrite request_count_cons. cbn [is_request]. lia.
Qed.

Lemma at_most_post_sheet W url d : at_most_requests 1 (post_sheet W url d).
Proof.
  intros t. unfold post_sheet. cbn [snd].
  rewrite request_count_cons. cbn [is_request]. lia.
Qed.

#[local] Hint Resolve at_most_ret at_most_raise at_most_lift at_most_print
  at_most_print_then at_most_if at_most_requests_get
  at_most_post_customer_query at_most_post_employee_query
  at_most_post_sheet : reqs.

(* ===================================================================== *)
(** ** Further properties: the CRM queries *)
(* ===================================================================== *)

(** One run of the employee lookup, with everything later proofs need. *)
Lemma get_employee_name_run W self employee_id t :
  exists name t',
    get_employee_name W self employee_id t = (Ret name, t') /\
    request_count t' = S (request_count t) /\
    (net W (request_count t) <> Status 200 \/
     select_employees W employee_id = [] ->
     name = "Employee ID: " ++ employee_id).
Proof.
  unfold get_employee_name, try_except, bind, post_employee_query, print, ret.
  destruct (net W (request_count t)) as [e|code].
  - eexists _, _. split; [reflexivity|]. split; [|reflexivity].
    rewrite !request_count_cons. reflexivity.
  - destruct (Z.eqb_spec code 200) as [->|Hcode].
    + destruct (select_employees W employee_id) as [|emp rest].
      * eexists _, _. split; [reflexivity|]. split; [|reflexivity].
        rewrite !request_count_cons. reflexivity.
      * eexists _, _. split; [reflexivity|].
        split; [rewrite !request_count_cons; reflexivity|].
        intros [H|H]; [contradiction|discriminate].
    + eexists _, _. split; [reflexivity|]. split; [|reflexivity].
      rewrite !request_count_cons. reflexivity.
Qed.

(** X3.  The employee lookup degrades, it does not fail: it always returns
    a name after exactly one request, and when that request fails, is
    answered with another status than 200, or finds no employee with the
    id, the name is the placeholder "Employee ID: <id>". *)
Theorem employee_lookup_degrades_to_placeholder W self employee_id t :
  exists name t',
    get_employee_name W self employee_id t = (Ret name, t') /\
    request_count t' = S (request_count t) /\
    ledger_writes t' = ledger_writes t /\
    (net W (request_count t) <> Status 200 \/
     select_employees W employee_id = [] ->
     name = "Employee ID: " ++ employee_id).
Proof.
  destruct (get_employee_name_run W self employee_id t)
    as (name & t' & Hrun & Hreq & Hfallback).
  exists name, t'. repeat split; try assumption.
  pose proof (preserves_get_employee_name W self employee_id t) as Hl.
  rewrite Hrun in Hl. exact Hl.
Qed.

(** What a record returned by the query helper is made of. *)
Lemma execute_row W self q mt t m t' :
  _execute_search_query W self q mt t = (Ret (Some m), t') ->
  exists c rest rep,
    select_customers W q = c :: rest /\
    contact_id m = c_id c /\
    contact_email m = c_email c /\
    contact_phone m = c_phone c /\
    created_date m = c_datecreated c /\
    record_type m = Some "customer" /\
    sales_rep m = Some rep /\
    (isdigit (get_or (c_salesrep c) "") = false ->
     rep = or_str (c_salesrep c) "Not Assigned" /\
     request_count t' = S (request_count t)).
Proof.
  unfold _execute_search_query, try_except, bind, post_customer_query.
  destruct (net W (request_count t)) as [e|code]; [discriminate|].
  destruct (Z.eqb_spec code 200) as [->|Hcode]; [|discriminate].
  destruct (select_customers W q) as [|c rest]; [discriminate|].
  destruct (isdigit (get_or (c_salesrep c) "")) eqn:Hdigit.
  - destruct (truthy_opt (c_salesrep c)); cbn [andb].
    + destruct (get_employee_name W self _ _) as [[rep|e] t1]; [|discriminate].
      unfold ret. intros H. injection H as <- <-.
      exists c, rest, rep. repeat split; congruence.
    + unfold ret. intros H. injection H as <- <-.
      eexists c, rest, _. repeat split; congruence.
  - rewrite andb_false_r.
    unfold ret. intros H. injection H as <- <-.
    eexists c, rest, _. repeat split.
Qed.

(** The number of requests one customer query costs: one, plus the
    employee lookup when a row with a numeric sales rep comes back. *)
Lemma execute_requests W self q mt t :
  exists o t',
    _execute_search_query W self q mt t = (Ret o, t') /\
    (S (request_count t) <= request_count t' <= request_count t + 2)%nat /\
    (o = None -> request_count t' = S (request_count t)).
Proof.
  unfold _execute_search_query, try_except, bind, post_customer_query, print, ret.
  destruct (net W (request_count t)) as [e|code].
  - eexists _, _. split; [reflexivity|].
    rewrite !request_count_cons. cbn [is_request]. split; [lia|reflexivity].
  - destruct (code =? 200)%Z.
    + destruct (select_customers W q) as [|c rest].
      * eexists _, _. split; [reflexivity|].
        rewrite !request_count_cons. cbn [is_request]. split; [lia|reflexivity].
      * destruct (truthy_opt (c_salesrep c) && isdigit (get_or (c_salesrep c) "")).
        -- destruct (get_employee_name_run W self (get_or (c_salesrep c) "")
                       (CustomerPost (query_base_url self ++ "/suiteql") q :: t))
             as (rep & t1 & -> & Hreq & _).
           eexists _, _. split; [reflexivity|].
           rewrite Hreq, request_count_cons. cbn [is_request].
           split; [lia|discriminate].
        -- eexists _, _. split; [reflexivity|].
           rewrite request_count_cons. cbn [is_request].
           split; [lia|discriminate].
    + eexists _, _. split; [reflexivity|].
      rewrite !request_count_cons. cbn [is_request]. split; [lia|reflexivity].
Qed.

(** The run of the matcher, stage by stage. *)
Lemma search_contact_stages W self email phone t :
  (exists e,
     entry_clean_phone phone = Raise e /\
     search_contact_by_email_and_phone W self email phone t
     = (Ret (not_found_result true ("Search error: " ++ exn_str e)),
        Print ("Error searching NetSuite contact: " ++ exn_str e) :: t)) \/
  (exists cp pm t1,
     entry_clean_phone phone = Ret cp /\
     (if truthy_opt cp
      then _search_customer_perfect_match W self email (get_or cp "")
      else ret None) t = (Ret pm, t1) /\
     ((exists r,
         pm = Some r /\ truthy_opt cp = true /\
         search_contact_by_email_and_phone W self email phone t = (Ret r, t1)) \/
      (pm = None /\
       exists em t2,
         _search_customer_email_only W self email t1 = (Ret em, t2) /\
         ((em = None /\
           search_contact_by_email_and_phone W self email phone t
           = (Ret (not_found_result true "No NetSuite record found"), t2)) \/
          (exists m mv reason,
             em = Some m /\
             search_contact_by_email_and_phone W self email phone t
             = (Ret (set_review m mv reason), t2)))))).
Proof.
  destruct (entry_clean_phone phone) as [cp|e] eqn:Hcp.
  - right.
    destruct (returns_perfect_stage W self email cp t) as (pm & t1 & Hperfect).
    exists cp, pm, t1. split; [reflexivity|]. split; [exact Hperfect|].
    destruct pm as [r|].
    + left. exists r. split; [reflexivity|].
      split; [destruct (truthy_opt cp); [reflexivity|discriminate]|].
      unfold search_contact_by_email_and_phone, try_except.
      unfold bind at 1. rewrite entry_clean_phone_run, Hcp.
      unfold bind. rewrite Hperfect. reflexivity.
    + right. split; [reflexivity|].
      destruct (returns_execute_search_query W self
                  (EmailOnlyQuery (Py.str email)) "Email match" t1)
        as (em & t2 & Hemail).
      exists em, t2. split; [exact Hemail|].
      destruct em as [m|].
      * right. rewrite (email_stage _ _ _ _ _ _ _ _ _ Hcp Hperfect Hemail).
        destruct (truthy_opt cp && truthy_opt (contact_phone m));
          [destruct (option_string_eqb _ cp)|];
          eexists m, _, _; split; reflexivity.
      * left. split; [reflexivity|].
        unfold search_contact_by_email_and_phone, try_except.
        unfold bind at 1. rewrite entry_clean_phone_run, Hcp.
        unfold bind at 1. rewrite Hperfect.
        unfold bind, _search_customer_email_only. rewrite Hemail.
        reflexivity.
  - left. exists e. split; [reflexivity|].
    unfold search_contact_by_email_and_phone, try_except.
    unfold bind at 1. rewrite entry_clean_phone_run, Hcp.
    reflexivity.
Qed.

(** X5.  The matcher never reports a stranger when the searched email and
    the caller's phone hold no quote character: a result with found=true
    then describes a customer of the CRM table whose email equals the
    searched one up to case and who has a sales rep; the id, email and
    phone of the result are that customer's, and the result names a sales
    rep.  (With a quote in a pasted value the query is another one, and
    the record may be any row.) *)
Theorem found_result_is_a_crm_customer W self email phone t r t' :
  has_quote (Py.str email) = false ->
  has_quote (Py.str phone) = false ->
  search_contact_by_email_and_phone W self email phone t = (Ret r, t') ->
  found r = true ->
  exists c rep,
    In c (customers W) /\
    email_matches c (Py.str email) = true /\
    has_salesrep c = true /\
    contact_id r = c_id c /\
    contact_email r = c_email c /\
    contact_phone r = c_phone c /\
    sales_rep r = Some rep.
Proof.
  intros Hqe Hqp Hrun Hfound.
  destruct (search_contact_stages W self email phone t)
    as [(e & _ & Hrun')|(cp & pm & t1 & Hcp & Hperfect & Hstage)].
  { rewrite Hrun in Hrun'. injection Hrun' as -> _. discriminate Hfound. }
  pose proof (entry_clean_phone_quote_free phone cp Hqp Hcp) as Hqc.
  destruct Hstage as [(r0 & -> & Hsup & Hrun')|
                      (-> & em & t2 & Hemail & Hstage)].
  - rewrite Hrun in Hrun'. injection Hrun' as <- _.
    rewrite Hsup in Hperfect.
    destruct (execute_row _ _ _ _ _ _ _ Hperfect)
      as (c & rest & rep & Hsel & Hid & Hmail & Hphone & _ & _ & Hrep & _).
    destruct (selected_row W
                (PerfectMatchQuery (Py.str email) (get_or cp "")) c rest
                (has_quote_app_intro _ _ Hqe Hqc) Hsel)
      as (Hin & Hwhere).
    cbn [where_clause] in Hwhere.
    apply andb_true_iff in Hwhere as [Hwhere Hs].
    apply andb_true_iff in Hwhere as [He _].
    exists c, rep. repeat split; assumption.
  - destruct Hstage as [(-> & Hrun')|(m & mv & reason & -> & Hrun')];
      rewrite Hrun in Hrun'; injection Hrun' as -> _;
      [discriminate Hfound|].
    destruct (execute_row _ _ _ _ _ _ _ Hemail)
      as (c & rest & rep & Hsel & Hid & Hmail & Hphone & _ & _ & Hrep & _).
    destruct (selected_row _ (EmailOnlyQuery (Py.str email)) _ _ Hqe Hsel)
      as (Hin & Hwhere).
    cbn [where_clause] in Hwhere.
    apply andb_true_iff in Hwhere as [He Hs].
    exists c, rep. repeat split; assumption.
Qed.

Lemma found_result_is_a_crm_customer_witness :
  exists c rep,
    In c [ row "1" (Some "other@example.com") (Some "5551234") (Some "7");
           row "2" (Some "ANN@example.com") (Some "555-1111") (Some "42") ] /\
    email_matches c "ann@example.com" = true /\
    has_salesrep c = true /\
    Some "2" = c_id c /\
    Some "ANN@example.com" = c_email c /\
    Some "555-1111" = c_phone c /\
    Some "J. Smith" = Some rep.
Proof.
  edestruct (found_result_is_a_crm_customer
               (world_with
                  [ row "1" (Some "other@example.com") (Some "5551234")
                      (Some "7");
                    row "2" (Some "ANN@example.com") (Some "555-1111")
                      (Some "42") ]
                  [employee_42] env_full PNone all_ok)
               netsuite0 (PStr "ann@example.com") (PStr "5551234") [])
    as (c & rep & H1 & H2 & H3 & H4 & H5 & H6 & H7).
  - reflexivity.
  - reflexivity.
  - reflexivity.
  - reflexivity.
  - exists c, rep.
    split; [exact H1|]. split; [exact H2|]. split; [exact H3|].
    split; [exact H4|]. split; [exact H5|]. split; [exact H6|exact H7].
Defined.

(** The cost of one search, in requests and ledger writes. *)
Lemma search_contact_requests W self email phone t :
  exists r t',
    search_contact_by_email_and_phone W self email phone t = (Ret r, t') /\
    (request_count t <= request_count t' <= request_count t + 3)%nat /\
    ledger_writes t' = ledger_writes t /\
    (truthy phone = false -> (request_count t' <= request_count t + 2)%nat) /\
    (request_count t' = request_count t <->
     exists e, entry_clean_phone phone = Raise e).
Proof.
  assert (Hledger : forall r t',
             search_contact_by_email_and_phone W self email phone t
             = (Ret r, t') -> ledger_writes t' = ledger_writes t).
  { intros r t' Hrun.
    pose proof (preserves_search_contact W self email phone t) as Hl.
    rewrite Hrun in Hl. exact Hl. }
  destruct (search_contact_stages W self email phone t)
    as [(e & Hcp & Hrun)|(cp & pm & t1 & Hcp & Hperfect & Hstage)].
  { eexists _, _. split; [exact Hrun|].
    rewrite request_count_cons. cbn [is_request].
    split; [lia|]. split; [exact (Hledger _ _ Hrun)|].
    split; [intros _; lia|]. split; [intros _; exists e; exact Hcp|reflexivity]. }
  assert (Hp : (if truthy_opt cp
                then (S (request_count t) <= request_count t1
                      <= request_count t + 2)%nat /\
                     (pm = None -> request_count t1 = S (request_count t))
                else t1 = t)).
  { destruct (truthy_opt cp).
    - destruct (execute_requests W self
                  (PerfectMatchQuery (Py.str email) (get_or cp ""))
                  "Perfect match" t) as (o & t1' & Hrun & Hreq & Hnone).
      unfold _search_customer_perfect_match in Hperfect.
      rewrite Hrun in Hperfect. injection Hperfect as -> ->.
      split; assumption.
    - unfold ret in Hperfect. injection Hperfect as _ ->. reflexivity. }
  assert (Hfalsy : truthy phone = false -> truthy_opt cp = false).
  { intros Hf. unfold entry_clean_phone in Hcp. rewrite Hf in Hcp.
    injection Hcp as <-. reflexivity. }
  assert (Hnoraise : ~ exists e, entry_clean_phone phone = Raise e).
  { intros (e & He). rewrite He in Hcp. discriminate Hcp. }
  destruct Hstage as [(r0 & -> & Hsup & Hrun)|
                      (-> & em & t2 & Hemail & Hstage)].
  - rewrite Hsup in Hp. destruct Hp as (Hreq & _).
    exists r0, t1. split; [exact Hrun|]. split; [lia|].
    split; [exact (Hledger _ _ Hrun)|].
    split; [intros Hf; rewrite (Hfalsy Hf) in Hsup; discriminate Hsup|].
    split; [lia|intros H; contradiction].
  - destruct (execute_requests W self (EmailOnlyQuery (Py.str email))
                "Email match" t1) as (o & t2' & Hrun2 & Hreq2 & _).
    unfold _search_customer_email_only in Hemail.
    rewrite Hrun2 in Hemail. injection Hemail as -> ->.
    assert (Hbound : (S (request_count t) <= request_count t2
                      <= request_count t + 3)%nat /\
                     (truthy_opt cp = false ->
                      (request_count t2 <= request_count t + 2)%nat)).
    { destruct (truthy_opt cp).
      - destruct Hp as (Hreq & Hnone). rewrite (Hnone eq_refl) in Hreq2.
        split; [lia|discriminate].
      - subst t1. split; [lia|intros _; lia]. }
    destruct Hbound as (Hb3 & Hb2).
    destruct Hstage as [(_ & Hrun)|(m & mv & reason & _ & Hrun)];
      eexists _, t2; (split; [exact Hrun|]); (split; [lia|]);
      (split; [exact (Hledger _ _ Hrun)|]);
      (split; [intros Hf; exact (Hb2 (Hfalsy Hf))|]);
      (split; [lia|intros H; contradiction]).
Qed.

(** X6.  One search costs at most three requests to the CRM -- two when
    the caller's phone is absent or empty -- and none to the ledger.  It
    costs no request at all exactly when cleaning the caller's phone
    raised. *)
Theorem search_costs_at_most_three_requests W self email phone t :
  exists r t',
    search_contact_by_email_and_phone W self email phone t = (Ret r, t') /\
    (request_count t <= request_count t' <= request_count t + 3)%nat /\
    ledger_writes t' = ledger_writes t /\
    (truthy phone = false -> (request_count t' <= request_count t + 2)%nat) /\
    (request_count t' = request_count t <->
     exists e, entry_clean_phone phone = Raise e).
Proof. exact (search_contact_requests W self email phone t). Qed.

Lemma at_most_search_contact W self email phone :
  at_most_requests 3 (search_contact_by_email_and_phone W self email phone).
Proof.
  intros t.
  destruct (search_contact_requests W self email phone t)
    as (r & t' & -> & Hreq & _).
  exact Hreq.
Qed.

Lemma at_most_get_order_details W self order_id :
  at_most_requests 1 (get_order_details W self order_id).
Proof.
  unfold get_order_details.
  apply (at_most_try 1 0).
  - apply (at_most_bind 1 0); auto with reqs.
  - intros e. apply (at_most_bind 0 0); auto with reqs.
Qed.

Lemma at_most_format_bigcommerce_date W d :
  at_most_requests 0 (format_bigcommerce_date W d).
Proof.
  unfold format_bigcommerce_date.
  destruct (negb (truthy d)), d; auto with reqs.
Qed.

Lemma at_most_send_to_sheets W data :
  at_most_requests 1 (send_to_sheets W data).
Proof.
  unfold send_to_sheets.
  apply (at_most_try 1 0).
  - apply at_most_if.
    + apply (at_most_weaken 0 1); [lia|auto with reqs].
    + apply (at_most_bind 1 0); [auto with reqs|].
      intros code. apply at_most_if; auto with reqs.
  - intros e. auto with reqs.
Qed.

Lemma at_most_NetSuiteService_init W :
  at_most_requests 0 (NetSuiteService_init W).
Proof.
  unfold NetSuiteService_init.
  destruct (getenv W "NETSUITE_ACCOUNT_ID"); auto with reqs.
Qed.

(** At most five requests per order: one for the order, three for the
    CRM, one for the ledger. *)
Lemma at_most_process_klaviyo_order W kd :
  at_most_requests 5 (process_klaviyo_order W kd).
Proof.
  unfold process_klaviyo_order.
  apply (at_most_try 5 0); [|intros e; auto with reqs].
  apply (at_most_bind 0 5); [auto with reqs|intros order_info].
  apply at_most_if; [apply (at_most_weaken 0 5); [lia|auto with reqs]|].
  apply at_most_if; [apply (at_most_weaken 0 5); [lia|auto with reqs]|].
  apply at_most_print_then.
  apply (at_most_bind 0 5); [auto with reqs|intros bc].
  apply (at_most_bind 1 4); [apply at_most_get_order_details|intros od].
  apply (at_most_bind 0 4); [apply at_most_NetSuiteService_init|intros ns].
  apply (at_most_bind 3 1); [apply at_most_search_contact|intros cr].
  apply at_most_if.
  - apply at_most_print_then.
    apply (at_most_bind 0 1); [apply at_most_format_bigcommerce_date|intros d].
    apply (at_most_bind 1 0); [apply at_most_send_to_sheets|intros sent].
    destruct sent; auto with reqs.
  - apply (at_most_weaken 0 1); [lia|auto with reqs].
Qed.

(* ===================================================================== *)
(** ** Further properties: the orchestrator *)
(* ===================================================================== *)

Section LedgerBound.

Context {A B : Type}.

Lemma ledger_bound_of_preserves n (m : M A) :
  preserves_ledger m -> at_most_ledger_writes n m.
Proof. intros Hm t. rewrite (Hm t). lia. Qed.

Lemma ledger_bound_bind n (m : M A) (k : A -> M B) :
  preserves_ledger m -> (forall a, at_most_ledger_writes n (k a)) ->
  at_most_ledger_writes n (bind m k).
Proof.
  intros Hm Hk t. unfold bind. specialize (Hm t).
  destruct (m t) as [[a|e] t1]; cbn [snd] in *.
  - specialize (Hk a t1). lia.
  - lia.
Qed.

Lemma ledger_bound_try n (m : M A) (h : exn -> M A) :
  at_most_ledger_writes n m -> (forall e, preserves_ledger (h e)) ->
  at_most_ledger_writes n (try_except m h).
Proof.
  intros Hm Hh t. unfold try_except. specialize (Hm t).
  destruct (m t) as [[a|e] t1]; cbn [snd] in *.
  - exact Hm.
  - rewrite (Hh e t1). exact Hm.
Qed.

Lemma ledger_bound_if n (b : bool) (m1 m2 : M A) :
  at_most_ledger_writes n m1 -> at_most_ledger_writes n m2 ->
  at_most_ledger_writes n (if b then m1 else m2).
Proof. destruct b; auto. Qed.

End LedgerBound.

Lemma ledger_bound_send_to_sheets W data :
  at_most_ledger_writes 1 (send_to_sheets W data).
Proof.
  intros t.
  destruct (send_to_sheets_cases W data t) as (sent & t' & Hrun & Hcases).
  rewrite Hrun. cbn [snd].
  destruct (truthy_opt (getenv W "GOOGLE_WEBAPP_URL")).
  - destruct Hcases as [-> _]. lia.
  - destruct Hcases as [_ ->]. lia.
Qed.

Lemma preserves_NetSuiteService_init W :
  preserves_ledger (NetSuiteService_init W).
Proof.
  unfold NetSuiteService_init.
  destruct (getenv W "NETSUITE_ACCOUNT_ID"); auto with ledger.
Qed.

Lemma ledger_bound_process_klaviyo_order W kd :
  at_most_ledger_writes 1 (process_klaviyo_order W kd).
Proof.
  unfold process_klaviyo_order.
  apply ledger_bound_try; [|intros e; auto with ledger].
  apply ledger_bound_bind; [auto with ledger|intros order_info].
  apply ledger_bound_if;
    [apply ledger_bound_of_preserves; auto with ledger|].
  apply ledger_bound_if;
    [apply ledger_bound_of_preserves; auto with ledger|].
  apply ledger_bound_bind; [auto with ledger|intros _].
  apply ledger_bound_bind; [auto with ledger|intros bc].
  apply ledger_bound_bind; [apply preserves_get_order_details|intros od].
  apply ledger_bound_bind; [apply preserves_NetSuiteService_init|intros ns].
  apply ledger_bound_bind; [apply preserves_search_contact|intros cr].
  apply ledger_bound_if.
  - apply ledger_bound_bind; [auto with ledger|intros _].
    apply ledger_bound_bind; [apply preserves_format_bigcommerce_date|intros d].
    intros t. unfold bind.
    pose proof (ledger_bound_send_to_sheets W
                  (attribution_row (kd_store order_info) od cr d) t) as Hs.
    unfold attribution_row in Hs.
    destruct (send_to_sheets W _ t) as [[[|]|e] t1]; exact Hs.
  - apply ledger_bound_of_preserves. auto with ledger.
Qed.

Section EnsuresFacts.

Context {A B : Type} (P : B -> Prop).

Lemma ensures_ret (b : B) : P b -> ensures P (ret b).
Proof. intros Hb t a t' H. injection H as <- _. exact Hb. Qed.

Lemma ensures_bind (m : M A) (k : A -> M B) :
  (forall a, ensures P (k a)) -> ensures P (bind m k).
Proof.
  intros Hk t b t'. unfold bind.
  destruct (m t) as [[a|e] t1]; [apply Hk|discriminate].
Qed.

Lemma ensures_try (m : M B) (h : exn -> M B) :
  ensures P m -> (forall e, ensures P (h e)) -> ensures P (try_except m h).
Proof.
  intros Hm Hh t b t'. unfold try_except.
  destruct (m t) as [[a|e] t1] eqn:Hrun.
  - intros H. injection H as <- <-. exact (Hm _ _ _ Hrun).
  - apply Hh.
Qed.

Lemma ensures_if (b : bool) (m1 m2 : M B) :
  ensures P m1 -> ensures P m2 -> ensures P (if b then m1 else m2).
Proof. destruct b; auto. Qed.

End EnsuresFacts.

Lemma returns_process_klaviyo_order W kd :
  returns (process_klaviyo_order W kd).
Proof. unfold process_klaviyo_order. auto with total. Qed.

(** X7.  The orchestrator never raises: every payload gets a response,
    which is a success, an "ignored" status or an error with status 400
    or 500.  The status is 400 exactly when the payload can be read (it
    is an object whose [data] is an object or is absent) and the order id
    or the store name is missing; every other failure -- a payload or a
    [data] that is not an object, unknown store, missing configuration,
    order API down, ledger refusing the row -- is a 500. *)
Theorem orchestrator_always_responds W (p : trigger_payload) t :
  exists resp t',
    process_klaviyo_order W p t = (Ret resp, t') /\
    (forall msg code, resp = Error msg code -> code = 400%Z \/ code = 500%Z) /\
    ((exists msg, resp = Error msg 400) <->
     exists order_info,
       payload_data p = Ret order_info /\
       (truthy (kd_order_id order_info) = false \/
        truthy (kd_store order_info) = false)).
Proof.
  destruct (returns_process_klaviyo_order W p t) as (resp & t' & Hrun).
  exists resp, t'. split; [exact Hrun|].
  destruct (payload_data p) as [kd|e] eqn:Hp.
  2: { unfold process_klaviyo_order, try_except, bind, lift in Hrun.
       rewrite Hp in Hrun. injection Hrun as <- _.
       split; [intros msg code H; injection H as _ <-; right; reflexivity|].
       split; [intros (msg & H); discriminate H
              |intros (d & H & _); discriminate H]. }
  destruct (truthy (kd_order_id kd)) eqn:Hid.
  2: { unfold process_klaviyo_order, try_except, bind, lift in Hrun.
       rewrite Hp, Hid in Hrun. injection Hrun as <- _.
       split; [intros msg code H; injection H as _ <-; left; reflexivity|].
       split; [intros _; exists kd; split; [reflexivity|left; exact Hid]
              |intros _; eexists; reflexivity]. }
  destruct (truthy (kd_store kd)) eqn:Hstore.
  2: { unfold process_klaviyo_order, try_except, bind, lift in Hrun.
       rewrite Hp, Hid, Hstore in Hrun. injection Hrun as <- _.
       split; [intros msg code H; injection H as _ <-; left; reflexivity|].
       split; [intros _; exists kd; split; [reflexivity|right; exact Hstore]
              |intros _; eexists; reflexivity]. }
  assert (H500 : forall msg code, resp = Error msg code -> code = 500%Z).
  { revert Hrun. unfold process_klaviyo_order.
    revert t resp t'.
    apply (ensures_try (fun resp => forall msg code,
                          resp = Error msg code -> code = 500%Z)).
    - intros t resp t'. unfold bind at 1. unfold lift at 1. rewrite Hp.
      rewrite Hid, Hstore. cbn [negb]. revert t resp t'.
      apply (ensures_bind (fun resp => forall msg code,
                             resp = Error msg code -> code = 500%Z));
        intros _.
      apply ensures_bind; intros bc.
      apply ensures_bind; intros od.
      apply ensures_bind; intros ns.
      apply ensures_bind; intros cr.
      apply ensures_if.
      + apply ensures_bind; intros _.
        apply ensures_bind; intros d.
        apply ensures_bind; intros sent.
        destruct sent; apply ensures_ret; intros msg code H;
          [discriminate H|injection H as _ <-; reflexivity].
      + apply ensures_bind; intros _.
        apply ensures_ret. intros msg code H. discriminate H.
    - intros e. apply ensures_bind; intros _.
      apply ensures_ret. intros msg code H. injection H as _ <-. reflexivity. }
  split; [intros msg code H; right; exact (H500 _ _ H)|].
  split.
  - intros (msg & ->). specialize (H500 _ _ eq_refl). discriminate H500.
  - intros (d & Hd & H). injection Hd as <-.
    destruct H as [H|H]; congruence.
Qed.

(** X8.  Handling one order costs at most five outbound requests (one to
    the order API, three to the CRM, one to the ledger) and at most one
    ledger write, whatever the payload and whatever the outside world
    answers. *)
Theorem orchestrator_resource_bounds W kd t :
  exists resp t',
    process_klaviyo_order W kd t = (Ret resp, t') /\
    (request_count t <= request_count t' <= request_count t + 5)%nat /\
    (ledger_writes t' <= ledger_writes t + 1)%nat.
Proof.
  destruct (returns_process_klaviyo_order W kd t) as (resp & t' & Hrun).
  exists resp, t'. split; [exact Hrun|].
  pose proof (at_most_process_klaviyo_order W kd t) as Hreq.
  pose proof (ledger_bound_process_klaviyo_order W kd t) as Hled.
  rewrite Hrun in Hreq, Hled. split; assumption.
Qed.

Lemma get_order_details_failure W self order_id t e :
  orders W (request_count t) (base_url self ++ "/orders/" ++ Py.str order_id)
    = OrderRaises e ->
  get_order_details W self order_id t
  = (Raise e,
     Print ("Error fetching order " ++ Py.str order_id ++ " from "
            ++ store_name self ++ ": " ++ exn_str e)
     :: OrderGet (base_url self ++ "/orders/" ++ Py.str order_id) :: t).
Proof.
  intros Hfail.
  unfold get_order_details, try_except, bind, requests_get.
  rewrite Hfail. reflexivity.
Qed.

(** X9.  When the order API fails, the run stops there: the response is a
    500 carrying the text of the failure, and the trace shows the one
    request to the order API with the two log lines -- no query to the
    CRM, no ledger write. *)
Theorem order_fetch_failure_stops_the_run W kd t bc e :
  truthy (kd_order_id kd) = true ->
  truthy (kd_store kd) = true ->
  get_bigcommerce_service_by_store_name W (kd_store kd) = Ret bc ->
  orders W (request_count t)
    (base_url bc ++ "/orders/" ++ Py.str (kd_order_id kd)) = OrderRaises e ->
  process_klaviyo_order W kd t
  = (Ret (Error (exn_str e) 500),
     Print ("Error processing Klaviyo order: " ++ exn_str e)
     :: Print ("Error fetching order " ++ Py.str (kd_order_id kd) ++ " from "
               ++ store_name bc ++ ": " ++ exn_str e)
     :: OrderGet (base_url bc ++ "/orders/" ++ Py.str (kd_order_id kd))
     :: Print ("Processing order " ++ Py.str (kd_order_id kd) ++ " from "
               ++ Py.str (kd_store kd))
     :: t).
Proof.
  intros Hid Hstore Hbc Hfail.
  open_process.
  rewrite Hid, Hstore. cbn [negb].
  unfold bind at 1. unfold print at 1.
  unfold bind at 1. unfold lift at 1. rewrite Hbc.
  unfold bind at 1.
  rewrite (get_order_details_failure W bc (kd_order_id kd) _ e).
  - reflexivity.
  - rewrite request_count_cons. exact Hfail.
Qed.

Lemma order_fetch_failure_stops_the_run_witness :
  exists t',
    process_klaviyo_order order_api_down
      {| kd_order_id := PStr "1001"; kd_store := PStr "Wilson US" |} []
    = (Ret (Error "Connection refused" 500), t') /\
    request_count t' = 1%nat /\
    ledger_writes t' = 0%nat.
Proof.
  eexists. split.
  - apply (order_fetch_failure_stops_the_run order_api_down
             {| kd_order_id := PStr "1001"; kd_store := PStr "Wilson US" |}
             [] wilson_us (RequestException "Connection refused"));
      reflexivity.
  - split; reflexivity.
Defined.

(** X10.  A recognised store whose hash or token is not configured (unset
    or empty) is refused with a 500 "Missing configuration for store:
    <name>" before any request. *)
Theorem missing_store_configuration W kd t hash_key token_key name_key :
  truthy (kd_order_id kd) = true ->
  store_configs_get (kd_store kd) = Some (hash_key, token_key, name_key) ->
  truthy_opt (getenv W hash_key) = false \/
  truthy_opt (getenv W token_key) = false ->
  process_klaviyo_order W kd t
  = (Ret (Error ("Missing configuration for store: " ++ Py.str (kd_store kd))
            500),
     Print ("Error processing Klaviyo order: "
            ++ "Missing configuration for store: " ++ Py.str (kd_store kd))
     :: Print ("Processing order " ++ Py.str (kd_order_id kd) ++ " from "
               ++ Py.str (kd_store kd))
     :: t).
Proof.
  intros Hid Hcfg Hmissing.
  assert (Hstore : truthy (kd_store kd) = true).
  { destruct (kd_store kd) as [|s|z]; try discriminate Hcfg.
    cbn [truthy]. destruct (String.eqb_spec s ""); [subst s|reflexivity].
    discriminate Hcfg. }
  open_process.
  rewrite Hid, Hstore. cbn [negb].
  unfold bind, print, lift, get_bigcommerce_service_by_store_name.
  rewrite Hcfg.
  destruct Hmissing as [H|H]; rewrite H; cbn [negb orb];
    [|rewrite orb_true_r]; reflexivity.
Qed.

Lemma missing_store_configuration_witness :
  process_klaviyo_order
    (world_with [] [] env_no_token PNone all_ok)
    {| kd_order_id := PStr "1001"; kd_store := PStr "Wilson US" |} []
  = (Ret (Error "Missing configuration for store: Wilson US" 500),
     [ Print "Error processing Klaviyo order: Missing configuration for store: Wilson US";
       Print "Processing order 1001 from Wilson US" ]).
Proof.
  apply (missing_store_configuration
           (world_with [] [] env_no_token PNone all_ok)
           {| kd_order_id := PStr "1001"; kd_store := PStr "Wilson US" |} []
           "BIGCOMMERCE_STORE1_HASH" "BIGCOMMERCE_STORE1_ACCESS_TOKEN"
           "BIGCOMMERCE_STORE1_NAME").
  - reflexivity.
  - reflexivity.
  - right. reflexivity.
Defined.





(** The end of a run that reached the match step, when the order is not
    attributed. *)
Lemma process_ignored W kd t od cr t2 :
  reaches_match W kd t od cr t2 ->
  found cr && negb (is_unassigned (sales_rep cr)) = false ->
  process_klaviyo_order W kd t
  = (Ret (Ignored (kd_order_id kd) (review_reason cr)),
     Print ("No sales rep attribution - ignoring order ("
            ++ review_reason cr ++ ")") :: t2).
Proof.
  intros (Hid & Hstore & bc & ns & t0 & t1 & Hbc & Hprint & Hfetch & Hns
          & Hsearch) Hattr.
  open_process.
  rewrite Hid, Hstore. cbn [negb].
  unfold bind at 1. rewrite Hprint.
  unfold bind at 1. unfold lift at 1. rewrite Hbc.
  unfold bind at 1. rewrite Hfetch.
  unfold bind at 1. rewrite Hns.
  unfold bind at 1. rewrite Hsearch, Hattr.
  reflexivity.
Qed.

(** The end of a run that reached the match step, when the order is
    attributed: the outcome of the ledger step decides. *)
Lemma process_attributed W kd t od cr t2 d t4 sent t5 :
  reaches_match W kd t od cr t2 ->
  found cr && negb (is_unassigned (sales_rep cr)) = true ->
  format_bigcommerce_date W (od_order_date od)
    (Print ("Found customer with sales rep: "
            ++ Py.str (of_opt (sales_rep cr)) ++ " - " ++ review_reason cr)
     :: t2) = (Ret d, t4) ->
  send_to_sheets W (attribution_row (kd_store kd) od cr d) t4
    = (Ret sent, t5) ->
  process_klaviyo_order W kd t
  = (Ret (if sent
          then Success (kd_order_id kd) (sales_rep cr) (manual_verification cr)
          else Error "Failed to send to Google Sheets" 500),
     t5).
Proof.
  intros (Hid & Hstore & bc & ns & t0 & t1 & Hbc & Hprint & Hfetch & Hns
          & Hsearch) Hattr Hdate Hsend.
  open_process.
  rewrite Hid, Hstore. cbn [negb].
  unfold bind at 1. rewrite Hprint.
  unfold bind at 1. unfold lift at 1. rewrite Hbc.
  unfold bind at 1. rewrite Hfetch.
  unfold bind at 1. rewrite Hns.
  unfold bind at 1. rewrite Hsearch, Hattr.
  unfold bind at 1. unfold print at 1.
  unfold bind at 1. rewrite Hdate.
  unfold attribution_row in Hsend.
  unfold bind. rewrite Hsend.
  destruct sent; reflexivity.
Qed.

(** The date step returns, and adds neither a request nor a ledger
    write. *)
Lemma format_bigcommerce_date_run W d t :
  exists out t',
    format_bigcommerce_date W d t = (Ret out, t') /\
    request_count t' = request_count t /\
    ledger_writes t' = ledger_writes t.
Proof.
  destruct (returns_format_bigcommerce_date W d t) as (out & t' & Hrun).
  pose proof (at_most_format_bigcommerce_date W d t) as Hreq.
  pose proof (preserves_format_bigcommerce_date W d t) as Hled.
  rewrite Hrun in Hreq, Hled. cbn [snd] in *.
  exists out, t'. repeat split; [exact Hrun|lia|exact Hled].
Qed.

(** One run of the ledger step. *)
Lemma send_to_sheets_run W data t :
  exists sent t',
    send_to_sheets W data t = (Ret sent, t') /\
    (sent = true <->
     truthy_opt (getenv W "GOOGLE_WEBAPP_URL") = false \/
     net W (request_count t) = Status 200) /\
    request_count t'
    = (request_count t
       + if truthy_opt (getenv W "GOOGLE_WEBAPP_URL") then 1 else 0)%nat /\
    ledger_writes t'
    = (ledger_writes t
       + if truthy_opt (getenv W "GOOGLE_WEBAPP_URL") then 1 else 0)%nat.
Proof.
  unfold send_to_sheets, try_except, bind, post_sheet, print, ret.
  destruct (truthy_opt (getenv W "GOOGLE_WEBAPP_URL")); cbn [negb].
  - destruct (net W (request_count t)) as [e|code].
    + eexists _, _. split; [reflexivity|].
      split; [split; [discriminate|intros [H|H]; discriminate H]|].
      unfold ledger_writes.
      rewrite !request_count_cons. cbn. split; lia.
    + destruct (Z.eqb_spec code 200) as [->|Hcode].
      * eexists _, _. split; [reflexivity|].
        split; [split; [intros _; right; reflexivity|reflexivity]|].
        unfold ledger_writes.
        rewrite !request_count_cons. cbn. split; lia.
      * eexists _, _. split; [reflexivity|].
        split; [split; [discriminate|
                        intros [H|H]; [discriminate H|congruence]]|].
        unfold ledger_writes.
        rewrite !request_count_cons. cbn. split; lia.
  - eexists _, _. split; [reflexivity|].
    split; [split; [intros _; left; reflexivity|reflexivity]|].
    unfold ledger_writes.
    rewrite !request_count_cons. cbn. split; lia.
Qed.

Lemma reaches_match_ledger W kd t od cr t2 :
  reaches_match W kd t od cr t2 -> ledger_writes t2 = ledger_writes t.
Proof.
  intros (_ & _ & bc & ns & t0 & t1 & _ & Hprint & Hfetch & _ & Hsearch).
  pose proof (preserves_search_contact W ns (od_email od) (od_phone od) t1) as H2.
  pose proof (preserves_get_order_details W bc (kd_order_id kd) t0) as H1.
  pose proof (preserves_print
                ("Processing order " ++ Py.str (kd_order_id kd) ++ " from "
                 ++ Py.str (kd_store kd)) t) as H0.
  rewrite Hsearch in H2. rewrite Hfetch in H1. rewrite Hprint in H0.
  cbn [snd] in *. congruence.
Qed.

(** X12.  The ledger refusing the row is an error, not a retry: when the
    order is attributed, a ledger endpoint is configured and its answer
    is anything but a 200 (or no answer at all), the run returns the 500
    "Failed to send to Google Sheets", having posted the row exactly
    once. *)
Theorem ledger_refusal_is_an_error W kd t od cr t2 :
  reaches_match W kd t od cr t2 ->
  found cr = true ->
  is_unassigned (sales_rep cr) = false ->
  truthy_opt (getenv W "GOOGLE_WEBAPP_URL") = true ->
  net W (request_count t2) <> Status 200 ->
  exists t',
    process_klaviyo_order W kd t
    = (Ret (Error "Failed to send to Google Sheets" 500), t') /\
    request_count t' = S (request_count t2) /\
    ledger_writes t' = S (ledger_writes t).
Proof.
  intros Hreach Hfound Hrep Hurl Hnet.
  destruct (format_bigcommerce_date_run W (od_order_date od)
              (Print ("Found customer with sales rep: "
                      ++ Py.str (of_opt (sales_rep cr)) ++ " - "
                      ++ review_reason cr) :: t2))
    as (d & t4 & Hdate & Hreq4 & Hled4).
  destruct (send_to_sheets_run W (attribution_row (kd_store kd) od cr d) t4)
    as (sent & t5 & Hsend & Hsent & Hreq5 & Hled5).
  rewrite request_count_cons in Hreq4. cbn [is_request] in Hreq4.
  assert (Hfalse : sent = false).
  { destruct sent; [|reflexivity].
    destruct (proj1 Hsent eq_refl) as [H|H]; [congruence|].
    rewrite Hreq4 in H. contradiction. }
  exists t5. split.
  - rewrite (process_attributed W kd t od cr t2 d t4 sent t5 Hreach);
      [rewrite Hfalse; reflexivity|rewrite Hfound, Hrep; reflexivity
      |exact Hdate|exact Hsend].
  - rewrite Hurl in Hreq5, Hled5.
    pose proof (reaches_match_ledger _ _ _ _ _ _ Hreach) as Hled2.
    unfold ledger_writes in *. cbn [filter is_ledger_write] in Hled4.
    split; lia.
Qed.

Lemma ledger_refusal_is_an_error_witness :
  exists t',
    process_klaviyo_order
      (world_with [ann (Some "5551234") (Some "Jane Roe")] [] env_full
         (PStr "5551234") third_refused)
      {| kd_order_id := PStr "1001"; kd_store := PStr "Wilson US" |} []
    = (Ret (Error "Failed to send to Google Sheets" 500), t') /\
    request_count t' = 3%nat /\
    ledger_writes t' = 1%nat.
Proof.
  edestruct (ledger_refusal_is_an_error
            (world_with [ann (Some "5551234") (Some "Jane Roe")] [] env_full
               (PStr "5551234") third_refused)
            {| kd_order_id := PStr "1001"; kd_store := PStr "Wilson US" |} [])
    as (t' & Hrun & Hreq & Hled).
  - split; [reflexivity|]. split; [reflexivity|].
    eexists _, _, _, _.
    split; [reflexivity|]. split; [reflexivity|]. split; [reflexivity|].
    split; reflexivity.
  - reflexivity.
  - reflexivity.
  - reflexivity.
  - discriminate.
  - exists t'. split; [exact Hrun|]. split; [exact Hreq|exact Hled].
Defined.

(** X13.  Without a ledger endpoint in the environment (the variable
    unset or empty) an attributed order is still answered with a success
    status carrying the sales rep and the verification flag, although
    nothing is sent: the run adds no request and no ledger write after
    the match. *)
Theorem success_without_ledger_endpoint W kd t od cr t2 :
  reaches_match W kd t od cr t2 ->
  found cr = true ->
  is_unassigned (sales_rep cr) = false ->
  truthy_opt (getenv W "GOOGLE_WEBAPP_URL") = false ->
  exists t',
    process_klaviyo_order W kd t
    = (Ret (Success (kd_order_id kd) (sales_rep cr) (manual_verification cr)),
       t') /\
    request_count t' = request_count t2 /\
    ledger_writes t' = ledger_writes t.
Proof.
  intros Hreach Hfound Hrep Hurl.
  destruct (format_bigcommerce_date_run W (od_order_date od)
              (Print ("Found customer with sales rep: "
                      ++ Py.str (of_opt (sales_rep cr)) ++ " - "
                      ++ review_reason cr) :: t2))
    as (d & t4 & Hdate & Hreq4 & Hled4).
  destruct (send_to_sheets_run W (attribution_row (kd_store kd) od cr d) t4)
    as (sent & t5 & Hsend & Hsent & Hreq5 & Hled5).
  rewrite request_count_cons in Hreq4. cbn [is_request] in Hreq4.
  assert (Htrue : sent = true) by (apply Hsent; left; exact Hurl).
  exists t5. split.
  - rewrite (process_attributed W kd t od cr t2 d t4 sent t5 Hreach);
      [rewrite Htrue; reflexivity|rewrite Hfound, Hrep; reflexivity
      |exact Hdate|exact Hsend].
  - rewrite Hurl in Hreq5, Hled5.
    pose proof (reaches_match_ledger _ _ _ _ _ _ Hreach) as Hled2.
    unfold ledger_writes in *. cbn [filter is_ledger_write] in Hled4.
    split; lia.
Qed.

Lemma success_without_ledger_endpoint_witness :
  exists t',
    process_klaviyo_order
      (world_with [ann (Some "5551234") (Some "Jane Roe")] [] env_no_ledger
         (PStr "5551234") all_ok)
      {| kd_order_id := PStr "1001"; kd_store := PStr "Wilson US" |} []
    = (Ret (Success (PStr "1001") (Some "Jane Roe") false), t') /\
    request_count t' = 2%nat /\
    ledger_writes t' = 0%nat.
Proof.
  edestruct (success_without_ledger_endpoint
            (world_with [ann (Some "5551234") (Some "Jane Roe")] []
               env_no_ledger (PStr "5551234") all_ok)
            {| kd_order_id := PStr "1001"; kd_store := PStr "Wilson US" |} [])
    as (t' & Hrun & Hreq & Hled).
  - split; [reflexivity|]. split; [reflexivity|].
    eexists _, _, _, _.
    split; [reflexivity|]. split; [reflexivity|]. split; [reflexivity|].
    split; reflexivity.
  - reflexivity.
  - reflexivity.
  - reflexivity.
  - exists t'. split; [exact Hrun|]. split; [exact Hreq|exact Hled].
Defined.

(** X14.  A CRM outage silently drops the attribution: when the order was
    fetched, its billing phone is a string or absent, and no request is
    answered with a 200, the run returns the status "ignored" with the
    reason "No NetSuite record found" -- the same answer as for a
    customer unknown to the CRM -- and writes nothing to the ledger. *)
Theorem crm_outage_ignores_the_order W kd t bc od t1 ns cp :
  truthy (kd_order_id kd) = true ->
  truthy (kd_store kd) = true ->
  get_bigcommerce_service_by_store_name W (kd_store kd) = Ret bc ->
  get_order_details W bc (kd_order_id kd)
    (Print ("Processing order " ++ Py.str (kd_order_id kd) ++ " from "
            ++ Py.str (kd_store kd)) :: t) = (Ret od, t1) ->
  NetSuiteService_init W t1 = (Ret ns, t1) ->
  entry_clean_phone (od_phone od) = Ret cp ->
  (forall n, net W n <> Status 200) ->
  exists t',
    process_klaviyo_order W kd t
    = (Ret (Ignored (kd_order_id kd) "No NetSuite record found"), t') /\
    ledger_writes t' = ledger_writes t.
Proof.
  intros Hid Hstore Hbc Hfetch Hns Hcp Hdown.
  destruct (search_contact_unreachable W ns (od_email od) (od_phone od) cp t1
              Hcp Hdown) as (t2 & Hsearch).
  assert (Hreach : reaches_match W kd t od
                     (not_found_result true "No NetSuite record found") t2).
  { split; [exact Hid|]. split; [exact Hstore|].
    exists bc, ns, (Print ("Processing order " ++ Py.str (kd_order_id kd)
                           ++ " from " ++ Py.str (kd_store kd)) :: t), t1.
    repeat split; assumption. }
  eexists. split.
  - rewrite (process_ignored _ _ _ _ _ _ Hreach eq_refl). reflexivity.
  - pose proof (reaches_match_ledger _ _ _ _ _ _ Hreach) as Hled.
    unfold ledger_writes in *. cbn [filter is_ledger_write]. exact Hled.
Qed.

Lemma crm_outage_ignores_the_order_witness :
  exists t',
    process_klaviyo_order
      (world_with [ann (Some "5551234") (Some "Jane Roe")] [] env_full
         (PStr "5551234") all_down)
      {| kd_order_id := PStr "1001"; kd_store := PStr "Wilson US" |} []
    = (Ret (Ignored (PStr "1001") "No NetSuite record found"), t') /\
    ledger_writes t' = ledger_writes [].
Proof.
  eapply (crm_outage_ignores_the_order
            (world_with [ann (Some "5551234") (Some "Jane Roe")] [] env_full
               (PStr "5551234") all_down)
            {| kd_order_id := PStr "1001"; kd_store := PStr "Wilson US" |} []).
  - reflexivity.
  - reflexivity.
  - reflexivity.
  - reflexivity.
  - reflexivity.
  - reflexivity.
  - intros n. discriminate.
Defined.

(** X15.  The ledger step never raises and reports the truth about the
    post: it answers true exactly when no endpoint is configured (nothing
    is sent) or the endpoint answered 200; with an endpoint configured it
    posts the row exactly once, whatever the answer. *)
Theorem ledger_step_outcome W data t :
  exists sent t',
    send_to_sheets W data t = (Ret sent, t') /\
    (sent = true <->
     truthy_opt (getenv W "GOOGLE_WEBAPP_URL") = false \/
     net W (request_count t) = Status 200) /\
    request_count t'
    = (request_count t
       + if truthy_opt (getenv W "GOOGLE_WEBAPP_URL") then 1 else 0)%nat /\
    ledger_writes t'
    = (ledger_writes t
       + if truthy_opt (getenv W "GOOGLE_WEBAPP_URL") then 1 else 0)%nat.
Proof. exact (send_to_sheets_run W data t). Qed.

(** X16.  The order fetcher makes exactly one request, to
    <base>/orders/<id>, whether it returns or raises.  An order it
    returns carries the store name of the service and the id of the
    response, and when the response has no billing address its email,
    phone and customer name are empty strings. *)
Theorem order_fetch_shape W self order_id t :
  exists r t',
    get_order_details W self order_id t = (r, t') /\
    request_count t' = S (request_count t) /\
    In (OrderGet (base_url self ++ "/orders/" ++ Py.str order_id)) t' /\
    forall od,
      r = Ret od ->
      od_store od = store_name self /\
      exists data,
        orders W (request_count t)
          (base_url self ++ "/orders/" ++ Py.str order_id) = OrderJson data /\
        od_id od = oj_id data /\
        od_order_date od = oj_date_created data /\
        (oj_billing_address data = None ->
         od_email od = PStr "" /\ od_phone od = PStr "" /\
         od_customer_name od = "").
Proof.
  unfold get_order_details, try_except, bind, requests_get, print, raise, ret.
  destruct (orders W (request_count t)
              (base_url self ++ "/orders/" ++ Py.str order_id))
    as [e|data] eqn:Hreply.
  - eexists _, _. split; [reflexivity|].
    split; [rewrite !request_count_cons; reflexivity|].
    split; [right; left; reflexivity|].
    intros od H. discriminate H.
  - eexists _, _. split; [reflexivity|].
    split; [rewrite !request_count_cons; reflexivity|].
    split; [left; reflexivity|].
    intros od H. injection H as <-. split; [reflexivity|].
    exists data. repeat split.
    all: cbn [od_email od_phone od_customer_name];
      match goal with H : oj_billing_address _ = None |- _ => rewrite H end;
      reflexivity.
Qed.

(* ===================================================================== *)
(** ** Further properties: the serverless entry point *)
(* ===================================================================== *)

(** X17.  Whatever the request, [handler] leaves the three CORS headers on
    the response and a status code that is 200, 405 or 500: the 400 of a
    validation error is never the status of the response. *)
Theorem handler_status_and_cors W request response t :
  let '(_, response', _) := handler W request response t in
  assoc "Access-Control-Allow-Origin" (headers response') = Some "*" /\
  assoc "Access-Control-Allow-Methods" (headers response')
    = Some "POST, OPTIONS" /\
  assoc "Access-Control-Allow-Headers" (headers response')
    = Some "Content-Type" /\
  (status_code response' = Some 200%Z \/
   status_code response' = Some 405%Z \/
   status_code response' = Some 500%Z).
Proof.
  unfold handler.
  destruct (method request =? "OPTIONS"); [repeat split; auto|].
  destruct (method request =? "POST"); cbn [negb];
    [|repeat split; auto].
  destruct (get_json request) as [[kd|e]|].
  - destruct (process_klaviyo_order W kd t) as [[resp|e] t'];
      cbn; repeat split; auto.
  - cbn. repeat split; auto.
  - destruct (body_json request) as [kd|e].
    + destruct (process_klaviyo_order W kd t) as [[resp|e] t'];
        cbn; repeat split; auto.
    + cbn. repeat split; auto.
Qed.

(** A preflight request is answered at once: status 200, an empty body,
    and nothing done -- the trace is untouched, no order is processed. *)
Lemma preflight_is_answered_without_processing W request response t :
  method request = "OPTIONS" ->
  handler W request response t
  = (Returned (Text ""), set_status 200 (set_cors_headers response), t).
Proof. intros Hm. unfold handler. rewrite Hm. reflexivity. Qed.

Lemma preflight_is_answered_without_processing_witness :
  handler order_api_down
    {| method := "OPTIONS"; get_json := None;
       body_json := Raise (ValueError "Expecting value") |}
    blank_response []
  = (Returned (Text ""), set_status 200 (set_cors_headers blank_response), []).
Proof.
  apply preflight_is_answered_without_processing. reflexivity.
Defined.

(** X18.  A POST whose body decodes (on a request object without
    [get_json]) is answered with status 200 and the orchestrator's
    response as body, whatever the payload and whatever that response
    is: a validation error or an internal error of the orchestrator
    travels in the body of a 200. *)
Theorem post_is_answered_200_with_the_result W request response t
    (payload : trigger_payload) :
  method request = "POST" ->
  get_json request = None ->
  body_json request = Ret payload ->
  exists result t',
    process_klaviyo_order W payload t = (Ret result, t') /\
    handler W request response t
    = (Returned (Json (DumpResult result)),
       set_status 200 (set_cors_headers response), t').
Proof.
  intros Hm Hg Hb.
  destruct (returns_process_klaviyo_order W payload t) as (result & t' & Hrun).
  exists result, t'. split; [exact Hrun|].
  unfold handler. rewrite Hm, Hg, Hb, Hrun. reflexivity.
Qed.

Lemma post_is_answered_200_with_the_result_witness :
  exists t',
    handler order_api_down
      (post_of {| kd_order_id := PNone; kd_store := PStr "Wilson US" |})
      blank_response []
    = (Returned (Json (DumpResult
                         (Error "No order ID found in Klaviyo data" 400))),
       set_status 200 (set_cors_headers blank_response), t').
Proof.
  edestruct (post_is_answered_200_with_the_result order_api_down
               (post_of {| kd_order_id := PNone; kd_store := PStr "Wilson US" |})
               blank_response [])
    as (result & t' & Hrun & Hhandler).
  - reflexivity.
  - reflexivity.
  - reflexivity.
  - exists t'. injection Hrun as <- _. exact Hhandler.
Defined.

(** X19.  A POST whose body does not decode (on a request object without
    [get_json]) is answered with status 500 and the message "Handler
    error: <text>"; the order is not processed: the trace gains the log
    line and nothing else. *)
Theorem undecodable_body_is_a_500 W request response t e :
  method request = "POST" ->
  get_json request = None ->
  body_json request = Raise e ->
  handler W request response t
  = (Returned (Json (DumpError ("Handler error: " ++ exn_str e))),
     set_status 500 (set_cors_headers response),
     Print ("Handler error: " ++ exn_str e) :: t).
Proof.
  intros Hm Hg Hb. unfold handler. rewrite Hm, Hg, Hb. reflexivity.
Qed.

Lemma undecodable_body_is_a_500_witness :
  handler order_api_down
    {| method := "POST"; get_json := None;
       body_json := Raise (ValueError "Expecting value: line 1 column 1 (char 0)") |}
    blank_response []
  = (Returned (Json (DumpError
       "Handler error: Expecting value: line 1 column 1 (char 0)")),
     set_status 500 (set_cors_headers blank_response),
     [Print "Handler error: Expecting value: line 1 column 1 (char 0)"]).
Proof.
  apply (undecodable_body_is_a_500 order_api_down
           {| method := "POST"; get_json := None;
              body_json :=
                Raise (ValueError "Expecting value: line 1 column 1 (char 0)") |}
           blank_response []
           (ValueError "Expecting value: line 1 column 1 (char 0)"));
    reflexivity.
Defined.

(** X20.  A request whose method is neither OPTIONS nor POST does not get
    the 405 body: the status is set to 405, then building the body reads
    the local name [json] before any assignment and the function raises
    [UnboundLocalError]. *)
Theorem other_methods_raise W request response t :
  method request <> "OPTIONS" ->
  method request <> "POST" ->
  exists msg,
    handler W request response t
    = (Escaped (UnboundLocalError msg),
       set_status 405 (set_cors_headers response), t).
Proof.
  intros Ho Hp. unfold handler.
  destruct (String.eqb_spec (method request) "OPTIONS"); [contradiction|].
  destruct (String.eqb_spec (method request) "POST"); [contradiction|].
  eexists. reflexivity.
Qed.

Lemma other_methods_raise_witness :
  exists msg,
    handler order_api_down
      {| method := "GET"; get_json := None;
         body_json := Raise (ValueError "Expecting value") |}
      blank_response []
    = (Escaped (UnboundLocalError msg),
       set_status 405 (set_cors_headers blank_response), []).
Proof.
  apply other_methods_raise; discriminate.
Defined.

(** X21.  On a request object that has [get_json], a POST never gets its
    answer: the statement [import json] is skipped, so building the body
    raises [UnboundLocalError], the handler of the [try] sets the status
    to 500 and raises the same way while building its own body.  When
    [get_json] returned a payload the order has been processed in full by
    then -- its requests and its ledger write are in the trace. *)
Theorem get_json_requests_raise_after_processing W request response t r :
  method request = "POST" ->
  get_json request = Some r ->
  exists msg response' t',
    handler W request response t
    = (Escaped (UnboundLocalError msg), response', t') /\
    status_code response' = Some 500%Z /\
    forall payload : trigger_payload,
      r = Ret payload ->
      exists result t'',
        process_klaviyo_order W payload t = (Ret result, t'') /\
        t' = Print ("Handler error: " ++ msg) :: t''.
Proof.
  intros Hm Hg. unfold handler. rewrite Hm, Hg. cbn [String.eqb negb].
  destruct r as [kd|e].
  - destruct (returns_process_klaviyo_order W kd t) as (result & t'' & Hrun).
    rewrite Hrun. eexists _, _, _. split; [reflexivity|].
    split; [reflexivity|].
    intros kd' H. injection H as <-. exists result, t''.
    split; [exact Hrun|reflexivity].
  - eexists _, _, _. split; [reflexivity|]. split; [reflexivity|].
    intros kd H. discriminate H.
Qed.

Lemma get_json_requests_raise_after_processing_witness :
  exists msg response' t',
    handler
      (world_with [ann (Some "5551234") (Some "Jane Roe")] [] env_full
         (PStr "5551234") all_ok)
      {| method := "POST";
         get_json := Some (Ret (WithData
                                  {| kd_order_id := PStr "1001";
                                     kd_store := PStr "Wilson US" |}));
         body_json := Raise (AttributeError "body") |}
      blank_response []
    = (Escaped (UnboundLocalError msg), response', t') /\
    status_code response' = Some 500%Z /\
    ledger_writes t' = 1%nat.
Proof.
  edestruct (get_json_requests_raise_after_processing
               (world_with [ann (Some "5551234") (Some "Jane Roe")] [] env_full
                  (PStr "5551234") all_ok)
               {| method := "POST";
                  get_json := Some (Ret (WithData
                                           {| kd_order_id := PStr "1001";
                                              kd_store := PStr "Wilson US" |}));
                  body_json := Raise (AttributeError "body") |}
               blank_response [])
    as (msg & response' & t' & Hrun & Hstatus & Hprocessed).
  - reflexivity.
  - reflexivity.
  - exists msg, response', t'. split; [exact Hrun|]. split; [exact Hstatus|].
    destruct (Hprocessed _ eq_refl) as (result & t'' & Hp & ->).
    vm_compute in Hp. injection Hp as _ <-. reflexivity.
Defined.
